(** * XGBoost tutorial notebooks: evaluation and data preparation cells

    A shallow embedding of the code cells of the two notebooks
    ("Evaluate Gradient Boosting Models with XGBoost" and "Data Preparation
    for Gradient Boosting with XGBoost").  The cells are Python 2 scripts
    over numpy arrays; they call pandas, scikit-learn and xgboost.

    Conventions of the embedding:
    - a float is written as the rational it stands for ([Q]), and [NaN] is
      a value of its own; the arithmetic the cells themselves do on floats
      ([accuracy * 100.0], [results.mean()], [results.std()]) is double
      precision arithmetic, [Module Float64]: operands are taken as the
      nearest doubles and every result is rounded to the nearest double;
    - an exception is a [Raise] result carrying the exception's class name;
    - what a cell prints is the list of the texts its [print] statements
      wrote, in order (the text of [print(model)] runs over several lines
      of stdout);
    - the routines of third-party libraries that the cells import are not
      part of the notebooks: the small ones are modelled in [Module Numpy]
      and [Module Sklearn] from their documented behaviour, the others
      (file parsing, the boosted-tree estimator, the random permutation)
      are fields of the [Library] interface. *)

From Stdlib Require Import List String Ascii Bool Arith ZArith NArith QArith Qround Qabs
  Qpower Lia Lqa Permutation Sorted.
From ExtLib Require Import Structures.Monad.
Import ListNotations.
Import MonadNotation.

Local Open Scope string_scope.
Local Open Scope Z_scope.
Local Open Scope monad_scope.

(* ===================================================================== *)
(** ** Python values, exceptions and the builtins the cells use *)
(* ===================================================================== *)

Module Py.

(** An entry of an object array: a string, a number or NaN. *)
Inductive value : Type :=
| Str (s : string)
| Num (q : Q)
| NaN.

(** An exception is identified by its class name. *)
Definition fault : Type := string.

Inductive result (A : Type) : Type :=
| Ok (a : A)
| Raise (e : fault).
Arguments Ok {A} a.
Arguments Raise {A} e.

Definition rbind {A B : Type} (r : result A) (k : A -> result B) : result B :=
  match r with
  | Ok a => k a
  | Raise e => Raise e
  end.

#[export] Instance Monad_result : Monad result :=
  {| ret := @Ok; bind := @rbind |}.

Definition rmap {A B : Type} (f : A -> B) (r : result A) : result B :=
  rbind r (fun a => Ok (f a)).

(** [[f(x) for x in xs]] where [f] may raise: the first exception wins. *)
Fixpoint traverse {A B : Type} (f : A -> result B) (xs : list A)
  : result (list B) :=
  match xs with
  | [] => Ok []
  | x :: xs' =>
      rbind (f x) (fun y => rbind (traverse f xs') (fun ys => Ok (y :: ys)))
  end.

(** Python's [==] on two entries ([nan == nan] is false). *)
Definition py_eqb (a b : value) : bool :=
  match a, b with
  | Str s, Str t => String.eqb s t
  | Num p, Num q => Qeq_bool p q
  | _, _ => false
  end.

(** Python 2's [round(x)]: to the nearest integer, halves away from zero;
    the result is again a float. *)
Definition round_half_away (q : Q) : Z :=
  let a := Z.abs (Qnum q) in
  let b := Zpos (Qden q) in
  Z.sgn (Qnum q) * ((2 * a + b) / (2 * b)).

Definition round (v : value) : result value :=
  match v with
  | Num q => Ok (Num (inject_Z (round_half_away q)))
  | NaN => Ok NaN
  | Str _ => Raise "TypeError"
  end.

(** *** Decimal rendering *)

Definition digit (n : N) : ascii := ascii_of_N (48 + n).

Fixpoint digits_fuel (fuel : nat) (n : N) (acc : string) : string :=
  match fuel with
  | O => acc
  | S fuel' =>
      let acc' := String (digit (n mod 10)) acc in
      if (n / 10 =? 0)%N then acc' else digits_fuel fuel' (n / 10) acc'
  end.

(** [str(n)] for a natural number. *)
Definition str_N (n : N) : string :=
  digits_fuel (S (N.to_nat (N.log2 n))) n "".

Definition str_nat (n : nat) : string := str_N (N.of_nat n).

(** The nearest integer to [a/b] for [a >= 0], halves to the even
    neighbour: the rounding of C's and Python's ["%.2f"]. *)
Definition round_half_even (a : N) (b : positive) : N :=
  let q := (a / Npos b)%N in
  let r := (a mod Npos b)%N in
  if (2 * r <? Npos b)%N then q
  else if (Npos b <? 2 * r)%N then (q + 1)%N
  else if N.even q then q else (q + 1)%N.

(** The number of hundredths shown for [q]. *)
Definition hundredths (q : Q) : N :=
  round_half_even (Z.abs_N (Qnum q) * 100) (Qden q).

(** ["%.2f" % q] *)
Definition fmt_2f (q : Q) : string :=
  let n := hundredths q in
  (if Qnum q <? 0 then "-" else "") ++
  str_N (n / 100) ++ "." ++
  String (digit ((n / 10) mod 10)) (String (digit (n mod 10)) "").

(** [str(x)] of a float under ["%.2f"]. *)
Definition fmt_value (v : value) : result string :=
  match v with
  | Num q => Ok (fmt_2f q)
  | NaN => Ok "nan"
  | Str _ => Raise "TypeError"
  end.

(** The [%] operator on a template and a tuple of values, for the two
    directives the notebooks use: ["%.2f"] and ["%%"]. *)
Fixpoint py_format (template : string) (args : list value) : result string :=
  match template with
  | EmptyString =>
      match args with
      | [] => Ok ""
      | _ :: _ => Raise "TypeError"
      end
  | String "%" (String "%" rest) =>
      rmap (String "%") (py_format rest args)
  | String "%" (String "." (String "2" (String "f" rest))) =>
      match args with
      | [] => Raise "TypeError"
      | a :: args' =>
          rbind (fmt_value a) (fun shown =>
            rmap (append shown) (py_format rest args'))
      end
  | String "%" _ => Raise "ValueError"
  | String c rest => rmap (String c) (py_format rest args)
  end.

End Py.

(* ===================================================================== *)
(** ** Double precision: the arithmetic of Python's and numpy's floats *)
(* ===================================================================== *)

Module Float64.
Import Py.

(** A finite double is [m * 2^e] for integers [|m| < 2^53] and
    [e >= -1074].  The magnitudes the cells compute with are accuracies and
    percentages, far below the largest double; overflow to infinity is not
    part of the model. *)
Definition pow2 (e : Z) : Q := (2 ^ e)%Q.

(** [floor (log2 (n/d))] *)
Definition ilog2 (n d : positive) : Z :=
  let k := Z.log2 (Zpos n) - Z.log2 (Zpos d) in
  if Qle_bool (pow2 k) (Zpos n # d) then k else k - 1.

(** The exponent of the last place of the doubles around [q]: 52 binary
    places below the leading one, and never below that of the
    subnormals. *)
Definition exponent (q : Q) : Z :=
  match Qnum q with
  | Z0 => -1074
  | Zpos n | Zneg n => Z.max (ilog2 n (Qden q) - 52) (-1074)
  end.

Definition sign (q : Q) : Q := if Qnum q <? 0 then (-1)%Q else 1%Q.

(** The double nearest to [q], a tie going to the even significand. *)
Definition nearest (q : Q) : Q :=
  let e := exponent q in
  let y := (Qabs q * pow2 (- e))%Q in
  let m := round_half_even (Z.to_N (Qnum y)) (Qden y) in
  (sign q * inject_Z (Z.of_N m) * pow2 e)%Q.

(** [+], [-], [*] and [/] on two doubles: the exact result, rounded.  The
    cells divide by the length of an array with entries only, never by
    zero. *)
Definition add (a b : Q) : Q := nearest (a + b).
Definition sub (a b : Q) : Q := nearest (a - b).
Definition mul (a b : Q) : Q := nearest (a * b).
Definition div (a b : Q) : Q := nearest (a / b).

(** The square root of a double, rounded; [None] stands for the NaN of a
    negative argument. *)
Definition sqrt (x : Q) : option Q :=
  match Qnum x with
  | Z0 => Some 0%Q
  | Zneg _ => None
  | Zpos n =>
      let e := ilog2 n (Qden x) / 2 - 52 in
      let y := (x * pow2 (- (2 * e)))%Q in
      let s := Z.sqrt (Qfloor y) in
      let up := negb (Qle_bool y (inject_Z (s * s + s) + (1 # 4))) in
      Some (inject_Z (if up then s + 1 else s) * pow2 e)%Q
  end.

(** [x * k] for a float [x], taken as the nearest double, and a float
    constant [k]. *)
Definition times (x : value) (k : Q) : result value :=
  match x with
  | Str _ => Raise "TypeError"
  | Num p => Ok (Num (mul (nearest p) k))
  | NaN => Ok NaN
  end.

End Float64.

(* ===================================================================== *)
(** ** numpy arrays: the operations the cells apply to them *)
(* ===================================================================== *)

Module Numpy.
Import Py.

(** A two-dimensional array, by rows; [ncols] is [shape[1]], which an
    array keeps even when it has no row.  A one-dimensional array is a
    plain list. *)
Record ndarray : Type := mk_ndarray {
  ncols : nat;
  rows : list (list value)
}.

Definition nrows (a : ndarray) : nat := List.length (rows a).

(** [a[:, lo:hi]] on a two-dimensional array: a slice never raises, it is
    clipped to the shape. *)
Definition slice_cols (a : ndarray) (lo hi : nat) : ndarray :=
  let w := (Nat.min hi (ncols a) - lo)%nat in
  {| ncols := w; rows := map (fun r => firstn w (skipn lo r)) (rows a) |}.

(** [a[:, j]]: an index past the shape raises [IndexError]. *)
Definition column (a : ndarray) (j : nat) : result (list value) :=
  if (j <? ncols a)%nat
  then Ok (map (fun r => nth j r NaN) (rows a))
  else Raise "IndexError".

(** [a[i, j]], for reading an entry in a statement. *)
Definition entry (a : ndarray) (i j : nat) : option value :=
  match nth_error (rows a) i with
  | Some r => nth_error r j
  | None => None
  end.

(** [a[a == s] = v]: the boolean mask [a == s] selects the entries that
    compare equal to [s]; exactly those are overwritten with [v]. *)
Definition set_where_eq (s v : value) (a : ndarray) : ndarray :=
  {| ncols := ncols a;
     rows := map (map (fun x => if py_eqb x s then v else x)) (rows a) |}.

(** [a.astype(t)], with [conv] the conversion of one entry to [t]. *)
Definition astype (conv : value -> result value) (a : ndarray)
  : result ndarray :=
  rmap (mk_ndarray (ncols a)) (traverse (traverse conv) (rows a)).

(** [v.reshape(n, 1)]: the [n] entries become [n] rows of length one.
    An [(n, 1)] array is represented by its only column. *)
Definition reshape_n_1 {A : Type} (v : list A) (n : nat) : result (list A) :=
  if (List.length v =? n)%nat then Ok v else Raise "ValueError".

(** [numpy.concatenate((a, b), axis=1)] *)
Definition concatenate1 (a b : ndarray) : result ndarray :=
  if (nrows a =? nrows b)%nat
  then Ok {| ncols := (ncols a + ncols b)%nat;
             rows := map (fun p => (fst p ++ snd p)%list)
                         (combine (rows a) (rows b)) |}
  else Raise "ValueError".

(** [a[idx]] for a list of row indices (fancy indexing). *)
Definition take {A : Type} (xs : list A) (idx : list nat) : result (list A) :=
  traverse (fun i => match nth_error xs i with
                     | Some x => Ok x
                     | None => Raise "IndexError"
                     end) idx.

Definition take_rows (a : ndarray) (idx : list nat) : result ndarray :=
  rmap (mk_ndarray (ncols a)) (take (rows a) idx).

(** Arithmetic on entries, exact: the sum and the mean that the library
    routines of [Module Sklearn] are described with (a fraction of matches,
    the mean of a column).  The float arithmetic of [results.mean()] and
    [results.std()] follows further down. *)
Definition vadd (a b : value) : result value :=
  match a, b with
  | Str _, _ | _, Str _ => Raise "TypeError"
  | Num p, Num q => Ok (Num (p + q))
  | _, _ => Ok NaN
  end.

Definition vscale (a : value) (k : Q) : result value :=
  match a with
  | Str _ => Raise "TypeError"
  | Num p => Ok (Num (p * k))
  | NaN => Ok NaN
  end.

(** [v.sum()]: left to right from zero. *)
Fixpoint sum_from (acc : value) (v : list value) : result value :=
  match v with
  | [] => Ok acc
  | x :: v' => rbind (vadd acc x) (fun acc' => sum_from acc' v')
  end.

Definition sum (v : list value) : result value := sum_from (Num 0) v.

(** [v.mean()]: the sum over the number of entries; NaN on no entry. *)
Definition mean (v : list value) : result value :=
  match v with
  | [] => Ok NaN
  | _ :: _ =>
      rbind (sum v) (fun s =>
        vscale s (/ inject_Z (Z.of_nat (List.length v))))
  end.

(** *** What [numpy.loadtxt] returns *)

(** [loadtxt] squeezes the table it has read: a file of several rows and
    several columns gives a two-dimensional array, a file of one row or of
    one column a one-dimensional array, a file of one number an array
    without dimension. *)
Inductive array : Type :=
| Array0 (v : value)
| Array1 (v : list value)
| Array2 (a : ndarray).

Definition squeeze (a : ndarray) : array :=
  match rows a with
  | [] => Array1 []
  | [[v]] => Array0 v
  | [r] => Array1 r
  | _ :: _ :: _ =>
      if (ncols a =? 1)%nat then Array1 (map (fun r => nth 0 r NaN) (rows a))
      else Array2 a
  end.

(** [d[:, lo:hi]] and [d[:, j]] need two dimensions: on an array with
    fewer, numpy raises [IndexError] (too many indices). *)
Definition array_slice_cols (d : array) (lo hi : nat) : result ndarray :=
  match d with
  | Array2 a => Ok (slice_cols a lo hi)
  | _ => Raise "IndexError"
  end.

Definition array_column (d : array) (j : nat) : result (list value) :=
  match d with
  | Array2 a => column a j
  | _ => Raise "IndexError"
  end.

(** *** float64 arrays: [results.mean()] and [results.std()] *)

(** The entries of a float64 array, each the double nearest to the number
    it stands for; [None] when an entry is NaN, which every sum over the
    array then is.  A string is no float. *)
Fixpoint float64_data (v : list value) : result (option (list Q)) :=
  match v with
  | [] => Ok (Some [])
  | Str _ :: _ => Raise "TypeError"
  | NaN :: v' => rbind (float64_data v') (fun _ => Ok None)
  | Num q :: v' =>
      rbind (float64_data v')
            (fun d => Ok (option_map (cons (Float64.nearest q)) d))
  end.

(** numpy adds up a float array pairwise.  Fewer than eight entries are
    added from left to right.  Up to 128 entries are added in eight
    interleaved accumulators, which are then combined as a balanced tree;
    the entries past the last full block of eight are added at the end. *)
Fixpoint add_blocks (blocks : nat) (r l : list Q) : list Q * list Q :=
  match blocks with
  | O => (r, l)
  | S blocks' =>
      add_blocks blocks'
        (map (fun p => Float64.add (fst p) (snd p)) (combine r (firstn 8 l)))
        (skipn 8 l)
  end.

Definition combine8 (r : list Q) : Q :=
  match r with
  | [r0; r1; r2; r3; r4; r5; r6; r7] =>
      Float64.add
        (Float64.add (Float64.add r0 r1) (Float64.add r2 r3))
        (Float64.add (Float64.add r4 r5) (Float64.add r6 r7))
  | _ => 0%Q
  end.

Definition block_sum (a : list Q) : Q :=
  let (r, rest) :=
    add_blocks (List.length a / 8 - 1) (firstn 8 a) (skipn 8 a) in
  fold_left Float64.add rest (combine8 r).

(** More than 128 entries are split in two halves, the first a multiple of
    eight long, which are added up in the same way; [depth] bounds the
    number of such splits. *)
Fixpoint pairwise_sum (depth : nat) (a : list Q) : Q :=
  let n := List.length a in
  if (n <? 8)%nat then fold_left Float64.add a 0%Q
  else if (n <=? 128)%nat then block_sum a
  else
    match depth with
    | O => block_sum a
    | S depth' =>
        let n2 := (n / 2 - (n / 2) mod 8)%nat in
        Float64.add (pairwise_sum depth' (firstn n2 a))
                    (pairwise_sum depth' (skipn n2 a))
    end.

(** [numpy.add.reduce] over a float64 array: halving a list as often as it
    has entries leaves no part longer than 128. *)
Definition add_reduce (a : list Q) : Q := pairwise_sum (List.length a) a.

Definition Qlength (a : list Q) : Q := inject_Z (Z.of_nat (List.length a)).

(** [a.mean()], the sum over the number of entries. *)
Definition mean64 (a : list Q) : Q := Float64.div (add_reduce a) (Qlength a).

(** [a.std()]: the deviations from the mean, their squares, the mean of
    the squares, its root. *)
Definition var64 (a : list Q) : Q :=
  let arrmean := mean64 a in
  let x := map (fun x_i => Float64.sub x_i arrmean) a in
  let x := map (fun x_i => Float64.mul x_i x_i) x in
  Float64.div (add_reduce x) (Qlength a).

(** On an array without entries both are NaN (0/0). *)
Definition mean_float64 (v : list value) : result value :=
  rbind (float64_data v) (fun d =>
    match d with
    | Some (x :: a) => Ok (Num (mean64 (x :: a)))
    | _ => Ok NaN
    end).

Definition std_float64 (v : list value) : result value :=
  rbind (float64_data v) (fun d =>
    match d with
    | Some (x :: a) =>
        match Float64.sqrt (var64 (x :: a)) with
        | Some s => Ok (Num s)
        | None => Ok NaN
        end
    | _ => Ok NaN
    end).

End Numpy.

(* ===================================================================== *)
(** ** The scikit-learn routines the cells call *)
(* ===================================================================== *)

Module Sklearn.
Import Py Numpy.

(** *** sklearn.metrics *)

(** Modelled from the spec: [sklearn.metrics.accuracy_score] is imported,
    its body is not in the notebooks.  "Compute accuracy as fraction of
    exact matches": the mean of the indicator of [y_true == y_pred];
    vectors of different lengths are refused. *)
Definition accuracy_score (y_true y_pred : list value) : result value :=
  if (List.length y_true =? List.length y_pred)%nat
  then mean (map (fun p => if py_eqb (fst p) (snd p) then Num 1 else Num 0)
                 (combine y_true y_pred))
  else Raise "ValueError".

(** *** sklearn.preprocessing.LabelEncoder *)

Section Encoder.
Context {A : Type} (eqb leb : A -> A -> bool).

(** The values of [l] without repetition. *)
Fixpoint distinct (l : list A) : list A :=
  match l with
  | [] => []
  | x :: l' => x :: filter (fun y => negb (eqb x y)) (distinct l')
  end.

Fixpoint insert (x : A) (l : list A) : list A :=
  match l with
  | [] => [x]
  | y :: l' => if leb x y then x :: l else y :: insert x l'
  end.

Definition sort (l : list A) : list A := fold_right insert [] l.

(** [numpy.unique]: the distinct values, sorted. *)
Definition unique (l : list A) : list A := sort (distinct l).

Fixpoint index_of (x : A) (l : list A) : option nat :=
  match l with
  | [] => None
  | y :: l' => if eqb x y then Some O else option_map S (index_of x l')
  end.

(** Modelled from the spec: [sklearn.preprocessing.LabelEncoder] is
    imported, its body is not in the notebooks.  "Map string to index":
    [fit] keeps the sorted distinct values as [classes_], [transform]
    gives each value its position in [classes_] and refuses a value that
    was not fitted. *)
Record LabelEncoder : Type := mk_LabelEncoder { classes_ : list A }.

Definition fit (y : list A) : LabelEncoder := {| classes_ := unique y |}.

Definition transform (le : LabelEncoder) (y : list A) : result (list nat) :=
  traverse (fun x => match index_of x (classes_ le) with
                     | Some i => Ok i
                     | None => Raise "ValueError"
                     end) y.

Definition fit_transform (y : list A) : result (list nat) :=
  transform (fit y) y.
End Encoder.

(** The order numpy sorts an object array with under Python 2: numbers
    before strings, numbers by value, strings by their bytes. *)
Definition value_leb (a b : value) : bool :=
  match a, b with
  | Num p, Num q => Qle_bool p q
  | Num _, Str _ => true
  | Str s, Str t => String.leb s t
  | _, _ => false
  end.

(** An integer code as an array entry. *)
Definition code (i : nat) : value := Num (inject_Z (Z.of_nat i)).

(** *** sklearn.preprocessing.OneHotEncoder *)

(** Modelled from the spec: [sklearn.preprocessing.OneHotEncoder] is
    imported, its body is not in the notebooks.  "Representing a
    categorical value with n possible states as a length-n binary vector
    with exactly one set position": [fit_transform] on one column of
    integer codes (the cells reshape each feature to [(n, 1)]) makes one
    output column per code that occurs, in increasing order, and sets in
    each row the column of the row's code.  An empty column is refused. *)
Definition onehot_fit_transform (feature : list nat) : result ndarray :=
  match feature with
  | [] => Raise "ValueError"
  | _ :: _ =>
      let n_values := S (list_max feature) in
      let active := filter (fun c => existsb (Nat.eqb c) feature)
                           (seq 0 n_values) in
      Ok {| ncols := List.length active;
            rows := map (fun v => map (fun c => if (c =? v)%nat
                                                then Num 1 else Num 0) active)
                        feature |}
  end.

(** *** sklearn.preprocessing.Imputer *)

(** The entries of a column that are not missing. *)
Definition present (col : list value) : list value :=
  filter (fun v => match v with NaN => false | _ => true end) col.

Definition column_at (a : ndarray) (j : nat) : list value :=
  map (fun r => nth j r NaN) (rows a).

(** Modelled from the spec: [sklearn.preprocessing.Imputer] is imported,
    its body is not in the notebooks.  "Replace sentinel with ... column
    mean": with its defaults the imputer takes NaN as the missing value and
    the mean of the column's other entries as the replacement.  As the
    library documents, a column with no entry to average is discarded. *)
Definition statistics_ (a : ndarray) : result (list value) :=
  traverse (fun j => mean (present (column_at a j))) (seq 0 (ncols a)).

Definition is_nan (v : value) : bool :=
  match v with NaN => true | _ => false end.

(** [Imputer().fit_transform(X)]: the columns that have a mean are kept,
    and in them each NaN becomes the column's mean. *)
Definition imputer_fit_transform (a : ndarray) : result ndarray :=
  stats <- statistics_ a ;;
  let valid := filter (fun j => negb (is_nan (nth j stats NaN)))
                      (seq 0 (ncols a)) in
  Ok {| ncols := List.length valid;
        rows := map (fun r => map (fun j => if is_nan (nth j r NaN)
                                            then nth j stats NaN
                                            else nth j r NaN) valid)
                    (rows a) |}.

(** *** sklearn.cross_validation *)

(** [check_random_state]: an integer seeds a generator of its own, [None]
    means numpy's global generator. *)
Definition check_random_state {rng : Type} (RandomState : Z -> rng)
    (global : rng) (random_state : option Z) : rng :=
  match random_state with
  | Some seed => RandomState seed
  | None => global
  end.

Definition ceil_fraction (test_size : Q) (n : nat) : nat :=
  Z.to_nat (Qceiling (test_size * inject_Z (Z.of_nat n))).

(** [train_test_split(X, y, test_size=..., random_state=...)] for a float
    [test_size], scikit-learn's routine as it is documented: the first
    [ceil(test_size * n)] indices of a random permutation are the test
    rows, the others the training rows.  [permutation] is the generator's
    own routine.  A table and a class vector of different lengths are
    refused, and so are a [test_size] that is not strictly between 0 and 1
    and a split that leaves no row to train on. *)
Definition train_test_split {rng : Type} (RandomState : Z -> rng)
    (permutation : rng -> nat -> list nat) (global : rng)
    (X : ndarray) (y : list value) (test_size : Q) (random_state : option Z)
  : result (ndarray * ndarray * list value * list value) :=
  if negb (nrows X =? List.length y)%nat then Raise "ValueError"
  else if Qle_bool test_size 0 || Qle_bool 1 test_size then Raise "ValueError"
  else
    let n := nrows X in
    let n_test := ceil_fraction test_size n in
    let n_train := (n - n_test)%nat in
    if (n_train =? 0)%nat then Raise "ValueError"
    else
      let perm :=
        permutation (check_random_state RandomState global random_state) n in
      let ind_test := firstn n_test perm in
      let ind_train := firstn n_train (skipn n_test perm) in
      X_train <- take_rows X ind_train ;;
      X_test <- take_rows X ind_test ;;
      y_train <- take y ind_train ;;
      y_test <- take y ind_test ;;
      Ok (X_train, X_test, y_train, y_test).

(** The sizes of the folds: [n // k] each, the first [n % k] one more. *)
Definition fold_sizes (n n_folds : nat) : list nat :=
  map (fun i => (n / n_folds + (if i <? n mod n_folds then 1 else 0))%nat)
      (seq 0 n_folds).

Fixpoint test_folds (current : nat) (sizes : list nat) : list (list nat) :=
  match sizes with
  | [] => []
  | size :: sizes' => seq current size :: test_folds (current + size) sizes'
  end.

Definition mem (i : nat) (l : list nat) : bool := existsb (Nat.eqb i) l.

(** Modelled from the spec: [sklearn.cross_validation.KFold] is imported,
    its body is not in the notebooks.  "Partitioning a dataset into k
    disjoint subsets, training on k-1 and testing on the remainder, rotated
    k times": consecutive folds of the row indices [0..n-1]; each rotation
    pairs one fold, the test rows, with all the other rows.  The cells do
    not ask for shuffling, so [random_state] is not consulted.  Fewer than
    two folds, or more folds than rows, are refused. *)
Definition KFold (n n_folds : nat) (random_state : option Z)
  : result (list (list nat * list nat)) :=
  if (n_folds <=? 1)%nat then Raise "ValueError"
  else if (n <? n_folds)%nat then Raise "ValueError"
  else Ok (map (fun test =>
                  (filter (fun i => negb (mem i test)) (seq 0 n), test))
               (test_folds 0 (fold_sizes n n_folds))).

(** [cross_val_score(model, X, y, cv=...)]: for each rotation a fresh
    estimator is fitted on the training rows and scored, by accuracy, on
    the test rows. *)
Definition cross_val_score {model : Type}
    (fit_model : ndarray -> list value -> result model)
    (predict : model -> ndarray -> result (list value))
    (X : ndarray) (y : list value) (cv : list (list nat * list nat))
  : result (list value) :=
  traverse (fun fold =>
    X_train <- take_rows X (fst fold) ;;
    y_train <- take y (fst fold) ;;
    X_test <- take_rows X (snd fold) ;;
    y_test <- take y (snd fold) ;;
    m <- fit_model X_train y_train ;;
    y_pred <- predict m X_test ;;
    accuracy_score y_test y_pred) cv.

End Sklearn.

(* ===================================================================== *)
(** ** The notebooks' code cells *)
(* ===================================================================== *)

Module Notebook.
Import Py Numpy Sklearn.

(** What the cells take from their environment: the files as pandas and
    numpy parse them, numpy's random generators, the conversion of an entry
    to float32, and xgboost's classifier. *)
Class Library : Type := {
  rng : Type;
  RandomState : Z -> rng;
  permutation : rng -> nat -> list nat;
  (** [pandas.read_csv(path, delim_whitespace=..., header=None).values] *)
  read_csv : string -> bool -> result ndarray;
  (** [numpy.loadtxt(path, delimiter=",")], an array of as many
      dimensions as the file leaves after squeezing *)
  loadtxt : string -> result array;
  float32 : value -> result value;
  model : Type;
  (** [XGBClassifier().fit(X, y)] *)
  XGBClassifier_fit : ndarray -> list value -> result model;
  predict : model -> ndarray -> result (list value);
  (** The parameters shown between the brackets of [XGBClassifier(...)]. *)
  params : model -> string;
  (** [StratifiedKFold(y, n_folds=..., random_state=...)], not shuffled. *)
  StratifiedKFold :
    list value -> nat -> option Z -> result (list (list nat * list nat))
}.

(** A run of a cell: what its [print] statements wrote to stdout, and how
    it ended. *)
Definition cell (A : Type) : Type := (list string * result A)%type.

Definition cell_bind {A B : Type} (c : cell A) (k : A -> cell B) : cell B :=
  match c with
  | (out, Ok a) => let (out', r) := k a in ((out ++ out')%list, r)
  | (out, Raise e) => (out, Raise e)
  end.

#[export] Instance Monad_cell : Monad cell :=
  {| ret := fun _ a => ([], Ok a); bind := @cell_bind |}.

(** A statement that prints nothing. *)
Definition call {A : Type} (r : result A) : cell A := ([], r).

(** [print(line)] *)
Definition print (line : string) : cell unit := ([line], Ok tt).

(** [for i in xs: s = body(i, s)] *)
Fixpoint for_each {S : Type} (xs : list nat) (body : nat -> S -> result S)
    (s : S) : result S :=
  match xs with
  | [] => Ok s
  | i :: xs' => s' <- body i s ;; for_each xs' body s'
  end.

Section Cells.
Context {L : Library}.

(** The state of numpy's global random generator when a cell starts. *)
Variable global : rng.

(** [print(model)] *)
Definition print_model (m : model) : cell unit :=
  print ("XGBClassifier(" ++ params m ++ ")").

(** Data preparation notebook, first code cell: iris, string classes. *)
Definition cell_iris : cell unit :=
  dataset <- call (read_csv "iris.csv" false) ;;
  let X := slice_cols dataset 0 4 in
  Y <- call (column dataset 4) ;;
  let label_encoder := fit py_eqb value_leb Y in
  label_encoded_y <- call (transform py_eqb label_encoder Y) ;;
  let seed := 7 in
  let test_size := 33 # 100 in
  '(X_train, X_test, y_train, y_test) <-
    call (train_test_split RandomState permutation global
            X (map code label_encoded_y) test_size (Some seed)) ;;
  m <- call (XGBClassifier_fit X_train y_train) ;;
  print_model m ;;
  y_pred <- call (predict m X_test) ;;
  predictions <- call (traverse round y_pred) ;;
  accuracy <- call (accuracy_score y_test predictions) ;;
  line <- call (a <- Float64.times accuracy 100 ;;
                py_format "Accuracy: %.2f%%" [a]) ;;
  print line.

(** One pass of the loop over the columns of [X]. *)
Definition encode_column (X : ndarray) (i : nat) (encoded_x : option ndarray)
  : result (option ndarray) :=
  x_i <- column X i ;;
  feature <- fit_transform py_eqb value_leb x_i ;;
  feature <- reshape_n_1 feature (nrows X) ;;
  feature <- onehot_fit_transform feature ;;
  match encoded_x with
  | None => Ok (Some feature)
  | Some e => e' <- concatenate1 e feature ;; Ok (Some e')
  end.

(** [print("X shape: : ", encoded_x.shape)]: Python 2 prints the pair. *)
Definition print_shape (encoded_x : option ndarray) : cell ndarray :=
  match encoded_x with
  | None => call (Raise "AttributeError")
  | Some e =>
      print ("('X shape: : ', (" ++ str_nat (nrows e) ++ ", "
             ++ str_nat (ncols e) ++ "))") ;;
      ret e
  end.

(** Second code cell: breast cancer, label and one hot encoded inputs. *)
Definition cell_breast_cancer : cell unit :=
  dataset <- call (read_csv "datasets-uci-breast-cancer.csv" false) ;;
  let X := slice_cols dataset 0 9 in
  Y <- call (column dataset 9) ;;
  encoded_x <- call (for_each (seq 0 (ncols X)) (encode_column X) None) ;;
  encoded_x <- print_shape encoded_x ;;
  let label_encoder := fit py_eqb value_leb Y in
  label_encoded_y <- call (transform py_eqb label_encoder Y) ;;
  let seed := 7 in
  let test_size := 33 # 100 in
  '(X_train, X_test, y_train, y_test) <-
    call (train_test_split RandomState permutation global
            encoded_x (map code label_encoded_y) test_size (Some seed)) ;;
  m <- call (XGBClassifier_fit X_train y_train) ;;
  print_model m ;;
  y_pred <- call (predict m X_test) ;;
  predictions <- call (traverse round y_pred) ;;
  accuracy <- call (accuracy_score y_test predictions) ;;
  line <- call (a <- Float64.times accuracy 100 ;;
                py_format "Accuracy: %.2f%%" [a]) ;;
  print line.

(** Third code cell: horse colic, missing values set to zero. *)
Definition cell_horse_colic_zero : cell unit :=
  dataset <- call (read_csv "horse-colic.csv" true) ;;
  let X := slice_cols dataset 0 27 in
  Y <- call (column dataset 27) ;;
  let X := set_where_eq (Str "?") (Num 0) X in
  X <- call (astype float32 X) ;;
  let label_encoder := fit py_eqb value_leb Y in
  label_encoded_y <- call (transform py_eqb label_encoder Y) ;;
  let seed := 7 in
  let test_size := 33 # 100 in
  '(X_train, X_test, y_train, y_test) <-
    call (train_test_split RandomState permutation global
            X (map code label_encoded_y) test_size (Some seed)) ;;
  m <- call (XGBClassifier_fit X_train y_train) ;;
  print_model m ;;
  y_pred <- call (predict m X_test) ;;
  predictions <- call (traverse round y_pred) ;;
  accuracy <- call (accuracy_score y_test predictions) ;;
  line <- call (a <- Float64.times accuracy 100 ;;
                py_format "Accuracy: %.2f%%" [a]) ;;
  print line.

(** Fourth code cell: horse colic, missing values imputed with the mean. *)
Definition cell_horse_colic_impute : cell unit :=
  dataset <- call (read_csv "horse-colic.csv" true) ;;
  let X := slice_cols dataset 0 27 in
  Y <- call (column dataset 27) ;;
  let X := set_where_eq (Str "?") NaN X in
  X <- call (astype float32 X) ;;
  imputed_x <- call (imputer_fit_transform X) ;;
  let label_encoder := fit py_eqb value_leb Y in
  label_encoded_y <- call (transform py_eqb label_encoder Y) ;;
  let seed := 7 in
  let test_size := 33 # 100 in
  '(X_train, X_test, y_train, y_test) <-
    call (train_test_split RandomState permutation global
            imputed_x (map code label_encoded_y) test_size (Some seed)) ;;
  m <- call (XGBClassifier_fit X_train y_train) ;;
  print_model m ;;
  y_pred <- call (predict m X_test) ;;
  predictions <- call (traverse round y_pred) ;;
  accuracy <- call (accuracy_score y_test predictions) ;;
  line <- call (a <- Float64.times accuracy 100 ;;
                py_format "Accuracy: %.2f%%" [a]) ;;
  print line.

(** Evaluation notebook, first code cell: train and test split. *)
Definition cell_pima_split : cell unit :=
  dataset <- call (loadtxt "pima-indians-diabetes.csv") ;;
  X <- call (array_slice_cols dataset 0 8) ;;
  Y <- call (array_column dataset 8) ;;
  '(X_train, X_test, y_train, y_test) <-
    call (train_test_split RandomState permutation global
            X Y (33 # 100) (Some 7)) ;;
  m <- call (XGBClassifier_fit X_train y_train) ;;
  y_pred <- call (predict m X_test) ;;
  predictions <- call (traverse round y_pred) ;;
  accuracy <- call (accuracy_score y_test predictions) ;;
  line <- call (a <- Float64.times accuracy 100 ;;
                py_format "Accuracy: %.2f%%" [a]) ;;
  print line.

(** The summary line of the two cross validation cells. *)
Definition summary_line (results : list value) : result string :=
  mean_ <- mean_float64 results ;;
  a <- Float64.times mean_ 100 ;;
  std_ <- std_float64 results ;;
  b <- Float64.times std_ 100 ;;
  py_format "Accuracy: %.2f%% (%.2f%%)" [a; b].

(** Second code cell: k-fold cross validation. *)
Definition cell_pima_kfold : cell unit :=
  dataset <- call (loadtxt "pima-indians-diabetes.csv") ;;
  X <- call (array_slice_cols dataset 0 8) ;;
  Y <- call (array_column dataset 8) ;;
  kfold <- call (KFold (nrows X) 10 (Some 7)) ;;
  results <- call (cross_val_score XGBClassifier_fit predict X Y kfold) ;;
  line <- call (summary_line results) ;;
  print line.

(** Third code cell: stratified k-fold cross validation. *)
Definition cell_pima_stratified : cell unit :=
  dataset <- call (loadtxt "pima-indians-diabetes.csv") ;;
  X <- call (array_slice_cols dataset 0 8) ;;
  Y <- call (array_column dataset 8) ;;
  kfold <- call (StratifiedKFold Y 10 (Some 7)) ;;
  results <- call (cross_val_score XGBClassifier_fit predict X Y kfold) ;;
  line <- call (summary_line results) ;;
  print line.

End Cells.

End Notebook.

(* ===================================================================== *)
(** ** The cells as the specification describes them *)
(* ===================================================================== *)

Module Unrolled.
Import Py Numpy Sklearn Notebook.

(** The four calls that encode column [i] of [X]. *)
Definition onehot_column (X : ndarray) (i : nat) : result ndarray :=
  x_i <- column X i ;;
  feature <- fit_transform py_eqb value_leb x_i ;;
  feature <- reshape_n_1 feature (nrows X) ;;
  onehot_fit_transform feature.

(** The encoding of the nine input columns as the specification words
    it: a straight-line composition of library calls, no loop and no case
    analysis. *)
Definition encode_straight_line (X : ndarray) : result ndarray :=
  f0 <- onehot_column X 0 ;;
  f1 <- onehot_column X 1 ;;
  e <- concatenate1 f0 f1 ;;
  f2 <- onehot_column X 2 ;;
  e <- concatenate1 e f2 ;;
  f3 <- onehot_column X 3 ;;
  e <- concatenate1 e f3 ;;
  f4 <- onehot_column X 4 ;;
  e <- concatenate1 e f4 ;;
  f5 <- onehot_column X 5 ;;
  e <- concatenate1 e f5 ;;
  f6 <- onehot_column X 6 ;;
  e <- concatenate1 e f6 ;;
  f7 <- onehot_column X 7 ;;
  e <- concatenate1 e f7 ;;
  f8 <- onehot_column X 8 ;;
  concatenate1 e f8.

End Unrolled.

Module StraightLine.
Import Py Numpy Sklearn Notebook.

(** "Sequential script cells invoking library functions in a fixed order
    (load, split/encode, fit, predict, score, print)": the composition of
    six stages.  Each stage is handed what the stages before it
    produced; nothing is decided between two stages. *)
Definition pipeline {D S M P A : Type}
    (load : cell D) (split_encode : D -> cell S) (fit : S -> cell M)
    (predict : S -> M -> cell P) (score : S -> P -> cell A)
    (print_ : A -> cell unit) : cell unit :=
  dataset <- load ;;
  prepared <- split_encode dataset ;;
  m <- fit prepared ;;
  predictions <- predict prepared m ;;
  accuracy <- score prepared predictions ;;
  print_ accuracy.

(** In a cross validation cell the stages fit, predict and score are one
    library call, [cross_val_score], which goes through them on every
    rotation. *)
Definition cv_pipeline {D S A : Type}
    (load : cell D) (split : D -> cell S) (fit_predict_score : S -> cell A)
    (print_ : A -> cell unit) : cell unit :=
  dataset <- load ;;
  prepared <- split dataset ;;
  results <- fit_predict_score prepared ;;
  print_ results.

Section Stages.
Context {L : Library}.
Variable global : rng.

(** The training rows, the test rows and their classes. *)
Definition parts : Type := (ndarray * ndarray * list value * list value)%type.

(** Encode the class column and split, the end of the split/encode stage
    of the four preparation cells. *)
Definition encode_class_and_split (X : ndarray) (Y : list value)
  : cell parts :=
  label_encoded_y <- call (transform py_eqb (fit py_eqb value_leb Y) Y) ;;
  call (train_test_split RandomState permutation global
          X (map code label_encoded_y) (33 # 100) (Some 7)).

(** The split/encode stage of each train/test cell. *)
Definition split_encode_iris (dataset : ndarray) : cell parts :=
  Y <- call (column dataset 4) ;;
  encode_class_and_split (slice_cols dataset 0 4) Y.

Definition split_encode_breast_cancer (dataset : ndarray) : cell parts :=
  Y <- call (column dataset 9) ;;
  encoded_x <- call (Unrolled.encode_straight_line (slice_cols dataset 0 9)) ;;
  print ("('X shape: : ', (" ++ str_nat (nrows encoded_x) ++ ", "
         ++ str_nat (ncols encoded_x) ++ "))") ;;
  encode_class_and_split encoded_x Y.

Definition split_encode_horse_colic_zero (dataset : ndarray) : cell parts :=
  Y <- call (column dataset 27) ;;
  X <- call (astype float32
               (set_where_eq (Str "?") (Num 0) (slice_cols dataset 0 27))) ;;
  encode_class_and_split X Y.

Definition split_encode_horse_colic_impute (dataset : ndarray) : cell parts :=
  Y <- call (column dataset 27) ;;
  X <- call (astype float32
               (set_where_eq (Str "?") NaN (slice_cols dataset 0 27))) ;;
  imputed_x <- call (imputer_fit_transform X) ;;
  encode_class_and_split imputed_x Y.

Definition split_pima (dataset : array) : cell parts :=
  X <- call (array_slice_cols dataset 0 8) ;;
  Y <- call (array_column dataset 8) ;;
  call (train_test_split RandomState permutation global
          X Y (33 # 100) (Some 7)).

(** The fit stage, with and without [print(model)]; the predict stage with
    the rounding of the predictions; the score stage; the print stage. *)
Definition fit_and_show (prepared : parts) : cell model :=
  let '(X_train, _, y_train, _) := prepared in
  m <- call (XGBClassifier_fit X_train y_train) ;;
  print_model m ;;
  ret m.

Definition fit_only (prepared : parts) : cell model :=
  let '(X_train, _, y_train, _) := prepared in
  call (XGBClassifier_fit X_train y_train).

Definition predict_and_round (prepared : parts) (m : model)
  : cell (list value) :=
  let '(_, X_test, _, _) := prepared in
  y_pred <- call (predict m X_test) ;;
  call (traverse round y_pred).

Definition score_accuracy (prepared : parts) (predictions : list value)
  : cell value :=
  let '(_, _, _, y_test) := prepared in
  call (accuracy_score y_test predictions).

Definition print_accuracy (accuracy : value) : cell unit :=
  line <- call (a <- Float64.times accuracy 100 ;;
                py_format "Accuracy: %.2f%%" [a]) ;;
  print line.

(** The stages of the two cross validation cells: the table, its classes
    and the rotations; the scoring; the print statement. *)
Definition folds : Type :=
  (ndarray * list value * list (list nat * list nat))%type.

Definition split_kfold (dataset : array) : cell folds :=
  X <- call (array_slice_cols dataset 0 8) ;;
  Y <- call (array_column dataset 8) ;;
  kfold <- call (KFold (nrows X) 10 (Some 7)) ;;
  ret (X, Y, kfold).

Definition split_stratified (dataset : array) : cell folds :=
  X <- call (array_slice_cols dataset 0 8) ;;
  Y <- call (array_column dataset 8) ;;
  kfold <- call (StratifiedKFold Y 10 (Some 7)) ;;
  ret (X, Y, kfold).

Definition cross_validate (prepared : folds) : cell (list value) :=
  let '(X, Y, kfold) := prepared in
  call (cross_val_score XGBClassifier_fit predict X Y kfold).

Definition print_summary (results : list value) : cell unit :=
  line <- call (summary_line results) ;;
  print line.

End Stages.

End StraightLine.

(* ===================================================================== *)
(** ** A small concrete environment, to run the cells on *)
(* ===================================================================== *)

Module Demo.
Import Py Numpy Sklearn Notebook.

(** Conversion of an entry to a float: the few numerals of the demo files
    parse, any other string is refused. *)
Definition demo_float32 (v : value) : result value :=
  match v with
  | Str s =>
      if String.eqb s "1" then Ok (Num 1)
      else if String.eqb s "2" then Ok (Num 2)
      else if String.eqb s "3" then Ok (Num 3)
      else Raise "ValueError"
  | other => Ok other
  end.

(** A generator is its seed; its permutation rotates [0..n-1] by it. *)
Definition demo_permutation (r : Z) (n : nat) : list nat :=
  let k := Z.to_nat (r mod Z.of_nat (S n)) in
  (skipn k (seq 0 n) ++ firstn k (seq 0 n))%list.

(** A classifier that answers the first class it was trained on. *)
Definition demo_fit (X : ndarray) (y : list value) : result (list value) :=
  match y with
  | [] => Raise "XGBoostError"
  | _ :: _ => Ok y
  end.

Definition demo_predict (m : list value) (X : ndarray) : result (list value) :=
  Ok (map (fun _ => hd NaN m) (rows X)).

Definition load (files : string -> option ndarray) (path : string)
  : result ndarray :=
  match files path with
  | Some a => Ok a
  | None => Raise "IOError"
  end.

Definition demo_library (files : string -> option ndarray) : Library :=
  {| rng := Z;
     RandomState := fun seed => seed;
     permutation := demo_permutation;
     read_csv := fun path _ => load files path;
     loadtxt := fun path => rmap squeeze (load files path);
     float32 := demo_float32;
     model := list value;
     XGBClassifier_fit := demo_fit;
     predict := demo_predict;
     params := fun _ => "base_score=0.5";
     StratifiedKFold := fun y k => KFold (List.length y) k |}.

Definition iris_csv : ndarray :=
  {| ncols := 5;
     rows := [ [Num (51 # 10); Num (35 # 10); Num (14 # 10); Num (2 # 10);
                Str "Iris-setosa"];
               [Num (70 # 10); Num (32 # 10); Num (47 # 10); Num (14 # 10);
                Str "Iris-versicolor"];
               [Num (63 # 10); Num (33 # 10); Num (60 # 10); Num (25 # 10);
                Str "Iris-virginica"];
               [Num (49 # 10); Num (30 # 10); Num (14 # 10); Num (2 # 10);
                Str "Iris-setosa"] ] |}.

Definition breast_cancer_csv : ndarray :=
  {| ncols := 10;
     rows := [ map Str ["40-49"; "premeno"; "15-19"; "0-2"; "yes"; "3";
                        "right"; "left_up"; "no"; "recurrence-events"];
               map Str ["50-59"; "ge40"; "15-19"; "0-2"; "no"; "1";
                        "right"; "central"; "no"; "no-recurrence-events"];
               map Str ["50-59"; "ge40"; "35-39"; "0-2"; "no"; "2";
                        "left"; "left_low"; "no"; "recurrence-events"] ] |}.

Definition horse_colic_csv : ndarray :=
  {| ncols := 28;
     rows := [ (Str "2" :: Str "?" :: repeat (Num 1) 25 ++ [Num 2])%list;
               (Str "1" :: Str "3" :: repeat (Num 1) 25 ++ [Num 1])%list;
               (Str "?" :: Str "1" :: repeat (Num 1) 25 ++ [Num 1])%list ] |}.

(** Ten rows of eight measurements and a class, 0 or 1 in turn. *)
Definition pima_csv : ndarray :=
  {| ncols := 9;
     rows := map (fun i => (Num (inject_Z (Z.of_nat i)) :: repeat (Num 0) 7
                            ++ [Num (inject_Z (Z.of_nat (i mod 2)))])%list)
                 (seq 0 10) |}.

Definition files (path : string) : option ndarray :=
  if String.eqb path "iris.csv" then Some iris_csv
  else if String.eqb path "datasets-uci-breast-cancer.csv"
       then Some breast_cancer_csv
  else if String.eqb path "horse-colic.csv" then Some horse_colic_csv
  else if String.eqb path "pima-indians-diabetes.csv" then Some pima_csv
  else None.

Definition no_files (path : string) : option ndarray := None.

(** A horse colic file with a word where a number is expected. *)
Definition bad_files (path : string) : option ndarray :=
  if String.eqb path "horse-colic.csv"
  then Some {| ncols := 28;
               rows := [ (Str "two" :: repeat (Num 1) 26 ++ [Num 2])%list ] |}
  else None.

(** Feature tables for the missing-value steps: one whose first entry is
    NaN already, one whose first column holds nothing but the sentinel,
    and one with a sentinel among numbers. *)
Definition table_with_nan : ndarray :=
  {| ncols := 1; rows := [ [NaN]; [Num 1]; [Num 3] ] |}.

Definition table_with_empty_column : ndarray :=
  {| ncols := 2; rows := [ [Str "?"; Num 1]; [Str "?"; Num 2] ] |}.

Definition table_with_sentinel : ndarray :=
  {| ncols := 2; rows := [ [Str "?"; Str "1"]; [Num 3; Str "2"] ] |}.

End Demo.

(* ===================================================================== *)
(** ** The notions the stated properties use *)
(* ===================================================================== *)

Module Stated.
Import Py Numpy Sklearn Notebook.

(** The number of indices [i] at which [y[i] == p[i]]. *)
Definition matching (y p : list value) : nat :=
  List.length (filter (fun i => py_eqb (nth i y NaN) (nth i p NaN))
                      (seq 0 (List.length p))).

(** 1 where a pair agrees, 0 where it does not. *)
Definition indicator (pr : value * value) : Q :=
  if py_eqb (fst pr) (snd pr) then 1%Q else 0%Q.

(** A count as a rational. *)
Definition Qnat (n : nat) : Q := inject_Z (Z.of_nat n).

(** The sum of a list of rationals. *)
Definition Qsum (l : list Q) : Q := fold_right Qplus 0%Q l.

(** The number of distinct strings of a column. *)
Definition n_distinct (y : list string) : nat :=
  List.length (nodup string_dec y).

(** A row is one-hot: every entry is 0 or 1, and exactly one entry is 1. *)
Definition binary (v : value) : Prop := v = Num 0 \/ v = Num 1.

Definition ones (r : list value) : nat :=
  List.length (filter (fun v => py_eqb v (Num 1)) r).

Definition one_hot (n : nat) (r : list value) : Prop :=
  List.length r = n /\ Forall binary r /\ ones r = 1%nat.

(** The entry of column [c] in the row of code [v]. *)
Definition hot (v c : nat) : value :=
  if (c =? v)%nat then Num 1 else Num 0.

(** No line of the output reports an accuracy. *)
Definition no_accuracy_output (out : list string) : Prop :=
  forall line, In line out -> String.prefix "Accuracy" line = false.

(** The missing-value steps of the third code cell of the preparation
    notebook: [X[X == '?'] = 0] and [X = X.astype('float32')]. *)
Definition zero_fill (conv : value -> result value) (X : ndarray)
  : result ndarray :=
  astype conv (set_where_eq (Str "?") (Num 0) X).

(** The missing-value steps of its fourth code cell, up to the conversion:
    [X[X == '?'] = numpy.nan] and [X = X.astype('float32')]; the cell then
    calls [Imputer().fit_transform(X)]. *)
Definition mark_missing (conv : value -> result value) (X : ndarray)
  : result ndarray :=
  astype conv (set_where_eq (Str "?") NaN X).

Definition mean_impute (conv : value -> result value) (X : ndarray)
  : result ndarray :=
  X' <- mark_missing conv X ;;
  imputer_fit_transform X'.

(** Every row of an array has [shape[1]] entries. *)
Definition rectangular (a : ndarray) : Prop :=
  Forall (fun r => List.length r = ncols a) (rows a).

(** A cell as it runs in an environment: whether it cross validates, and
    the run itself. *)
Record cell_run : Type := mk_cell_run {
  cross_validated : bool;
  run : cell unit
}.

(** The seven cells, run from the state [global] of numpy's global random
    generator. *)
Definition runs {L : Library} (global : rng) : list cell_run :=
  [ mk_cell_run false (cell_iris global);
    mk_cell_run false (cell_breast_cancer global);
    mk_cell_run false (cell_horse_colic_zero global);
    mk_cell_run false (cell_horse_colic_impute global);
    mk_cell_run false (cell_pima_split global);
    mk_cell_run true cell_pima_kfold;
    mk_cell_run true cell_pima_stratified ].

(** A statement [step] of the cell [c], reached when [out] has been
    printed, hands its fault on: if [step] raises, the cell ends there with
    that fault and [out] is all it has printed; if [step] returns a value,
    [next] holds of the value. *)
Definition cell_step {A : Type} (c : cell unit) (out : list string)
    (step : result A) (next : A -> Prop) : Prop :=
  (forall e, step = Raise e -> c = (out, Raise e))
  /\ (forall a, step = Ok a -> next a).

(** The same for a statement [step] inside a computation [r] that prints
    nothing, such as a pass of the encoding loop. *)
Definition call_step {A B : Type} (r : result B) (step : result A)
    (next : A -> Prop) : Prop :=
  (forall e, step = Raise e -> r = Raise e)
  /\ (forall a, step = Ok a -> next a).

(** The statements of a train/test cell [c] from the fit on, [before]
    being what [c] has printed when it reaches them: each hands its fault
    on, and when all go through the cell ends with the accuracy line.  The
    four preparation cells print the model once it is fitted. *)
Definition evaluation_steps {L : Library} (c : cell unit)
    (before : list string) (prints_model : bool)
    (prepared : ndarray * ndarray * list value * list value) : Prop :=
  let '(X_train, X_test, y_train, y_test) := prepared in
  cell_step c before (XGBClassifier_fit X_train y_train) (fun m =>
  let out := if prints_model
             then (before
                   ++ [("XGBClassifier(" ++ params m ++ ")")%string])%list
             else before in
  cell_step c out (predict m X_test) (fun y_pred =>
  cell_step c out (traverse round y_pred) (fun predictions =>
  cell_step c out (accuracy_score y_test predictions) (fun accuracy =>
  cell_step c out (Float64.times accuracy 100) (fun a =>
  cell_step c out (py_format "Accuracy: %.2f%%" [a]) (fun line =>
  c = ((out ++ [line])%list, Ok tt))))))).

(** The statements of a preparation cell [c] that encode the class column
    [Y] and split the prepared table [X], and those after them. *)
Definition class_steps {L : Library} (global : rng) (c : cell unit)
    (before : list string) (X : ndarray) (Y : list value) : Prop :=
  cell_step c before (transform py_eqb (fit py_eqb value_leb Y) Y)
    (fun label_encoded_y =>
  cell_step c before
    (train_test_split RandomState permutation global
       X (map code label_encoded_y) (33 # 100) (Some 7))
    (evaluation_steps c before true)).

(** The statements of a cross validation cell [c] once it has its folds
    [kfold]: the scoring, then the parts of the print statement. *)
Definition cross_validation_steps {L : Library} (c : cell unit)
    (X : ndarray) (Y : list value) (kfold : list (list nat * list nat))
  : Prop :=
  cell_step c [] (cross_val_score XGBClassifier_fit predict X Y kfold)
    (fun results =>
  cell_step c [] (mean_float64 results) (fun mean_ =>
  cell_step c [] (Float64.times mean_ 100) (fun a =>
  cell_step c [] (std_float64 results) (fun std_ =>
  cell_step c [] (Float64.times std_ 100) (fun b =>
  cell_step c [] (py_format "Accuracy: %.2f%% (%.2f%%)" [a; b]) (fun line =>
  c = ([line], Ok tt))))))).

(** The text of [print("X shape: : ", encoded_x.shape)]. *)
Definition shape_line (encoded_x : ndarray) : string :=
  "('X shape: : ', (" ++ str_nat (nrows encoded_x) ++ ", "
  ++ str_nat (ncols encoded_x) ++ "))".

(** A decimal digit. *)
Definition is_digit (c : ascii) : Prop :=
  (48 <= N_of_ascii c <= 57)%N.

Fixpoint all_digits (s : string) : Prop :=
  match s with
  | EmptyString => True
  | String c s' => is_digit c /\ all_digits s'
  end.

End Stated.

(* ===================================================================== *)
(** ** Further notions, for the properties of the cells' own statements *)
(* ===================================================================== *)

Module Shapes.
Import Py Numpy Sklearn Notebook.

(** The number of columns the encoding of column [i] of [X] adds. *)
Definition block_width (X : ndarray) (i : nat) : nat :=
  match Unrolled.onehot_column X i with
  | Ok block => ncols block
  | Raise _ => 0
  end.

(** The entries of an array, row after row. *)
Definition entries (a : ndarray) : list value := List.concat (rows a).

(** Reading a decimal numeral back: the value of a digit, and of a string
    of digits after the value [acc] of the digits before it. *)
Definition digit_value (c : ascii) : N := (N_of_ascii c - 48)%N.

Fixpoint read_digits (s : string) (acc : N) : N :=
  match s with
  | EmptyString => acc
  | String c s' => read_digits s' (10 * acc + digit_value c)%N
  end.

(** A diabetes file with three rows only. *)
Definition short_pima_files (path : string) : option ndarray :=
  if String.eqb path "pima-indians-diabetes.csv"
  then Some {| ncols := 9;
               rows := [ repeat (Num 0) 9; repeat (Num 1) 9;
                         repeat (Num 0) 9 ] |}
  else None.

(** A diabetes file with one row only. *)
Definition one_row_pima_files (path : string) : option ndarray :=
  if String.eqb path "pima-indians-diabetes.csv"
  then Some {| ncols := 9; rows := [ repeat (Num 1) 9 ] |}
  else None.

(** A table of numbers without a missing entry. *)
Definition complete_table : ndarray :=
  {| ncols := 2; rows := [ [Num 1; Num 5]; [Num 3; Num 2] ] |}.

End Shapes.

(* ===================================================================== *)
(** ** Results *)
(* ===================================================================== *)

Import Py Numpy Sklearn Notebook Stated.
Local Open Scope Q_scope.

(** *** Double precision rounding *)

Section Doubles.
Import Float64.

Lemma round_half_even_nearest (a : N) (b : positive) :
  (2 * (round_half_even a b * Npos b) <= 2 * a + Npos b
   /\ 2 * a <= 2 * (round_half_even a b * Npos b) + Npos b)%N.
Proof.
  unfold round_half_even.
  pose proof (N.div_mod a (Npos b)) as Hdm.
  pose proof (N.mod_upper_bound a (Npos b)) as Hlt.
  set (q := (a / Npos b)%N) in *. set (r := (a mod Npos b)%N) in *.
  clearbody q r.
  destruct (N.ltb_spec (2 * r) (Npos b)); [lia|].
  destruct (N.ltb_spec (Npos b) (2 * r)); [lia|].
  destruct (N.even q); lia.
Qed.

Lemma hundredths_nearest (q : Q) :
  Qabs (Qabs q * 100 - inject_Z (Z.of_N (hundredths q))) <= 1 # 2.
Proof.
  apply Qabs_Qle_condition.
  unfold hundredths.
  pose proof (round_half_even_nearest (Z.abs_N (Qnum q) * 100) (Qden q)) as H.
  set (h := round_half_even _ _) in *. clearbody h.
  destruct q as [n d]. cbn [Qnum Qden] in *.
  unfold Qle, Qminus, Qplus, Qopp, Qmult, Qabs, inject_Z. cbn [Qnum Qden].
  split; lia.
Qed.

Lemma pow2_pos (e : Z) : 0 < pow2 e.
Proof. unfold pow2. apply Qpower_0_lt. reflexivity. Qed.

Lemma pow2_plus (a b : Z) : pow2 (a + b) == pow2 a * pow2 b.
Proof. unfold pow2. apply Qpower_plus. discriminate. Qed.


Lemma pow2_lt_inv (a b : Z) : pow2 a < pow2 b -> (a < b)%Z.
Proof. intros H. apply (Qpower_lt_compat_l_inv 2); [exact H | reflexivity]. Qed.

Lemma pow2_cancel (e : Z) : pow2 (- e) * pow2 e == 1.
Proof.
  rewrite <- pow2_plus. replace (- e + e)%Z with 0%Z by lia. reflexivity.
Qed.

Lemma pow2_nonneg_exponent (a : Z) :
  (0 <= a)%Z -> pow2 a == inject_Z (2 ^ a).
Proof. intros H. unfold pow2. now rewrite Zpower_Qpower. Qed.

(** [ilog2] does not overshoot. *)
Lemma ilog2_le (n d : positive) : pow2 (ilog2 n d) <= Zpos n # d.
Proof.
  unfold ilog2.
  set (a := Z.log2 (Zpos n)). set (b := Z.log2 (Zpos d)).
  destruct (Qle_bool (pow2 (a - b)) (Zpos n # d)) eqn:E.
  - now apply Qle_bool_iff.
  - assert (Ha : (0 <= a)%Z) by apply Z.log2_nonneg.
    assert (Hb : (0 <= b)%Z) by apply Z.log2_nonneg.
    destruct (Z.log2_spec (Zpos n)) as [Hn _]; [lia|]. fold a in Hn.
    destruct (Z.log2_spec (Zpos d)) as [_ Hd]; [lia|]. fold b in Hd.
    replace (a - b - 1)%Z with (a + - (Z.succ b))%Z by lia.
    rewrite pow2_plus. unfold pow2 at 2. rewrite Qpower_opp.
    fold (pow2 (Z.succ b)). rewrite !pow2_nonneg_exponent by lia.
    assert (HB : (0 < 2 ^ Z.succ b)%Z) by (apply Z.pow_pos_nonneg; lia).
    apply Qle_shift_div_r.
    + unfold Qlt, inject_Z. cbn [Qnum Qden]. lia.
    + unfold Qle, Qmult, inject_Z. cbn [Qnum Qden]. nia.
Qed.

Lemma ilog2_lt (n d : positive) (K : Z) :
  Zpos n # d < pow2 K -> (ilog2 n d < K)%Z.
Proof.
  intros H. apply pow2_lt_inv.
  eapply Qle_lt_trans; [apply ilog2_le | exact H].
Qed.

Lemma exponent_le (q : Q) (K : Z) :
  Qabs q < pow2 K -> (-1021 <= K)%Z -> (exponent q <= K - 53)%Z.
Proof.
  intros Hq HK. destruct q as [[|n|n] d]; unfold exponent; cbn [Qnum Qden].
  - lia.
  - pose proof (ilog2_lt n d K Hq). lia.
  - pose proof (ilog2_lt n d K Hq). lia.
Qed.

Lemma nearest_integer_close (y : Q) :
  0 <= y ->
  Qabs (inject_Z (Z.of_N (round_half_even (Z.to_N (Qnum y)) (Qden y))) - y)
  <= 1 # 2.
Proof.
  intros Hy. apply Qabs_Qle_condition.
  pose proof (round_half_even_nearest (Z.to_N (Qnum y)) (Qden y)) as H.
  set (m := round_half_even _ _) in *. clearbody m.
  destruct y as [n d]. cbn [Qnum Qden] in *.
  assert (Hn : (0 <= n)%Z) by (unfold Qle in Hy; cbn in Hy; lia).
  unfold Qle, Qminus, Qplus, Qopp, inject_Z. cbn [Qnum Qden].
  split; lia.
Qed.





Lemma nearest_nonneg (q : Q) : 0 <= q -> 0 <= nearest q.
Proof.
  intros Hq. unfold nearest, sign.
  assert (Hs : (Qnum q <? 0)%Z = false).
  { apply Z.ltb_ge. unfold Qle in Hq. cbn in Hq. lia. }
  rewrite Hs, Qmult_1_l.
  apply Qmult_le_0_compat; [|apply Qlt_le_weak, pow2_pos].
  change 0 with (inject_Z 0). rewrite <- Zle_Qle. lia.
Qed.

(** Rounding does not cross an integer, below [2^53]. *)
Lemma nearest_le_integer (q : Q) (z : Z) :
  0 <= q -> q <= inject_Z z -> (exponent q <= 0)%Z ->
  nearest q <= inject_Z z.
Proof.
  intros H0 Hz He. unfold nearest, sign.
  assert (Hs : (Qnum q <? 0)%Z = false).
  { apply Z.ltb_ge. unfold Qle in H0. cbn in H0. lia. }
  rewrite Hs, Qmult_1_l.
  set (e := exponent q) in *.
  set (y := Qabs q * pow2 (- e)).
  assert (Hy : 0 <= y).
  { unfold y. apply Qmult_le_0_compat; [apply Qabs_nonneg|].
    apply Qlt_le_weak, pow2_pos. }
  pose proof (nearest_integer_close y Hy) as Hm.
  set (m := Z.of_N (round_half_even (Z.to_N (Qnum y)) (Qden y))) in *.
  clearbody m.
  assert (Hp : pow2 (- e) == inject_Z (2 ^ (- e)))
    by (apply pow2_nonneg_exponent; lia).
  assert (Hyz : y <= inject_Z (z * 2 ^ (- e))).
  { unfold y. rewrite (Qabs_pos q H0), inject_Z_mult, <- Hp.
    apply Qmult_le_compat_r; [exact Hz | apply Qlt_le_weak, pow2_pos]. }
  assert (Hmz : (m <= z * 2 ^ (- e))%Z).
  { apply Qabs_Qle_condition in Hm as [_ Hm].
    assert (Hlt : inject_Z m < inject_Z (z * 2 ^ (- e) + 1)).
    { rewrite inject_Z_plus. change (inject_Z 1) with 1. lra. }
    rewrite <- Zlt_Qlt in Hlt. lia. }
  rewrite Zle_Qle, inject_Z_mult, <- Hp in Hmz.
  assert (Hback : inject_Z z == inject_Z z * pow2 (- e) * pow2 e)
    by (rewrite <- Qmult_assoc, pow2_cancel; ring).
  rewrite Hback.
  apply Qmult_le_compat_r; [exact Hmz | apply Qlt_le_weak, pow2_pos].
Qed.




End Doubles.

(** *** Sums and means *)

Section Means.

Lemma sum_from_Num (qs : list Q) (acc : Q) :
  sum_from (Num acc) (map Num qs) = Ok (Num (fold_left Qplus qs acc)).
Proof.
  revert acc; induction qs as [|q qs IH]; intros acc; simpl; [reflexivity|].
  apply IH.
Qed.

Lemma fold_left_Qplus (qs : list Q) (acc : Q) :
  fold_left Qplus qs acc == acc + Qsum qs.
Proof.
  revert acc; induction qs as [|q qs IH]; intros acc; simpl.
  - unfold Qsum; simpl; ring.
  - rewrite IH. unfold Qsum; simpl. ring.
Qed.

(** The mean of a non-empty float array is its sum over its length. *)
Lemma mean_Num (qs : list Q) :
  qs <> [] ->
  exists m, mean (map Num qs) = Ok (Num m)
            /\ m == Qsum qs / Qnat (List.length qs).
Proof.
  intros Hne. destruct qs as [|q qs]; [congruence|].
  exists (fold_left Qplus (q :: qs) 0 * / Qnat (List.length (q :: qs))).
  split.
  - unfold mean. cbn [map]. unfold sum.
    change (Num q :: map Num qs) with (map Num (q :: qs)).
    rewrite sum_from_Num. cbn [rbind vscale].
    rewrite length_map. reflexivity.
  - rewrite fold_left_Qplus. unfold Qdiv. ring.
Qed.

End Means.

(** *** Accuracy *)

Section Accuracy.

Lemma indicator_sum (l : list (value * value)) :
  Qsum (map indicator l)
  == Qnat (List.length (filter (fun pr => py_eqb (fst pr) (snd pr)) l)).
Proof.
  induction l as [|pr l IH]; [reflexivity|].
  cbn [map filter]. unfold Qsum in *. cbn [fold_right]. rewrite IH.
  unfold indicator. destruct (py_eqb (fst pr) (snd pr)).
  - cbn [List.length]. unfold Qnat. rewrite Nat2Z.inj_succ.
    unfold Z.succ. rewrite inject_Z_plus. ring.
  - ring.
Qed.

Lemma filter_seq_shift (f : nat -> bool) (s n : nat) :
  List.length (filter f (seq (S s) n))
  = List.length (filter (fun i => f (S i)) (seq s n)).
Proof.
  revert s; induction n as [|n IH]; intros s; [reflexivity|].
  cbn [seq filter]. destruct (f (S s)); cbn [List.length]; rewrite IH;
    reflexivity.
Qed.

Lemma matching_combine (y p : list value) :
  List.length y = List.length p ->
  matching y p
  = List.length (filter (fun pr => py_eqb (fst pr) (snd pr)) (combine y p)).
Proof.
  unfold matching. revert p; induction y as [|a y IH]; intros [|b p] Hlen;
    try discriminate; [reflexivity|].
  injection Hlen as Hlen.
  cbn [List.length seq filter combine nth fst snd].
  destruct (py_eqb a b); cbn [List.length]; rewrite filter_seq_shift;
    cbn [nth]; rewrite <- (IH p Hlen); reflexivity.
Qed.

End Accuracy.

Section Bounds.

Lemma Qnat_le (c n : nat) : (c <= n)%nat -> Qnat c <= Qnat n.
Proof. intros H. unfold Qnat. rewrite <- Zle_Qle. lia. Qed.

Lemma Qnat_pos (n : nat) : (0 < n)%nat -> 0 < Qnat n.
Proof.
  intros H. unfold Qnat, Qlt, inject_Z. cbn [Qnum Qden]. lia.
Qed.

(** A fraction of the entries, as a rational between 0 and 1. *)
Lemma fraction_bounds (c n : nat) :
  (c <= n)%nat -> (0 < n)%nat -> 0 <= Qnat c / Qnat n <= 1.
Proof.
  intros Hc Hn. split.
  - apply Qle_shift_div_l; [now apply Qnat_pos|].
    rewrite Qmult_0_l. change 0 with (Qnat 0). apply Qnat_le. lia.
  - apply Qle_shift_div_r; [now apply Qnat_pos|].
    rewrite Qmult_1_l. now apply Qnat_le.
Qed.

End Bounds.

(** C1.  For a target vector [y] and a prediction vector [p] of the same
    positive length, [accuracy_score y p] is the number of indices at which
    the two agree divided by the number of predictions. *)
Theorem accuracy_score_is_match_fraction (y p : list value) :
  List.length y = List.length p ->
  (0 < List.length p)%nat ->
  exists a, accuracy_score y p = Ok (Num a)
            /\ a == Qnat (matching y p) / Qnat (List.length p).
Proof.
  intros Hlen Hpos. unfold accuracy_score.
  rewrite Hlen, Nat.eqb_refl.
  assert (Hmap : map (fun pr : value * value =>
                        if py_eqb (fst pr) (snd pr) then Num 1 else Num 0)
                     (combine y p)
                 = map Num (map indicator (combine y p))).
  { rewrite map_map. apply map_ext. intros pr. unfold indicator.
    destruct (py_eqb (fst pr) (snd pr)); reflexivity. }
  rewrite Hmap.
  assert (Hne : map indicator (combine y p) <> []).
  { destruct y, p; simpl in *; try discriminate; lia. }
  destruct (mean_Num _ Hne) as (m & Hm & Hval).
  exists m. split; [exact Hm|].
  rewrite Hval, indicator_sum, length_map, length_combine, Hlen, Nat.min_id.
  rewrite (matching_combine y p Hlen). reflexivity.
Qed.

Lemma accuracy_score_is_match_fraction_witness :
  exists a, accuracy_score [Num 1; Num 0; Num 1] [Num 1; Num 1; Num 1]
            = Ok (Num a)
            /\ a == Qnat (matching [Num 1; Num 0; Num 1] [Num 1; Num 1; Num 1])
                    / Qnat 3.
Proof.
  apply (accuracy_score_is_match_fraction
           [Num 1; Num 0; Num 1] [Num 1; Num 1; Num 1]).
  - reflexivity.
  - simpl; lia.
Defined.

(** *** K-fold cross validation *)

Section Folds.
Local Open Scope nat_scope.

Lemma mem_In (i : nat) (l : list nat) : mem i l = true <-> In i l.
Proof.
  unfold mem. rewrite existsb_exists. split.
  - intros (x & Hx & Heq). apply Nat.eqb_eq in Heq. now subst.
  - intros H. exists i. split; [exact H | apply Nat.eqb_refl].
Qed.

Lemma length_test_folds (sizes : list nat) (c : nat) :
  List.length (test_folds c sizes) = List.length sizes.
Proof.
  revert c; induction sizes as [|s sizes IH]; intros c; simpl;
    [reflexivity | now rewrite IH].
Qed.




Lemma fold_sizes_positive (n k : nat) :
  0 < k -> k <= n -> Forall (fun s => 0 < s) (fold_sizes n k).
Proof.
  intros Hk Hn. unfold fold_sizes. apply Forall_forall.
  intros s Hs. apply in_map_iff in Hs as (i & <- & _).
  assert (1 <= n / k) by (apply Nat.div_le_lower_bound; lia). lia.
Qed.

Lemma test_folds_nonempty (sizes : list nat) (c : nat) :
  Forall (fun s => 0 < s) sizes ->
  Forall (fun t => t <> []) (test_folds c sizes).
Proof.
  intros H; revert c; induction H as [|s sizes Hs _ IH]; intros c; simpl;
    constructor; [|apply IH].
  destruct s; [lia | discriminate].
Qed.






End Folds.



(** *** Label encoding *)

Section EncoderFacts.
Local Open Scope nat_scope.
Context {A : Type} (eqb leb : A -> A -> bool).
Hypothesis eqb_eq : forall x y, eqb x y = true <-> x = y.

Lemma eqb_same (x : A) : eqb x x = true.
Proof. now apply eqb_eq. Qed.

Lemma distinct_In (l : list A) (x : A) : In x (distinct eqb l) <-> In x l.
Proof.
  induction l as [|a l IH]; simpl; [tauto|].
  rewrite filter_In, IH. split.
  - intros [H | [H _]]; auto.
  - intros [H | H]; [now left|].
    destruct (eqb a x) eqn:E.
    + left. now apply eqb_eq.
    + right. now split.
Qed.

Lemma NoDup_distinct (l : list A) : NoDup (distinct eqb l).
Proof.
  induction l as [|a l IH]; simpl; constructor.
  - rewrite filter_In, eqb_same. intros [_ H]. discriminate.
  - now apply NoDup_filter.
Qed.

Lemma insert_perm (x : A) (l : list A) : Permutation (insert leb x l) (x :: l).
Proof.
  induction l as [|a l IH]; simpl; [reflexivity|].
  destruct (leb x a); [reflexivity|].
  rewrite IH. apply perm_swap.
Qed.

Lemma sort_perm (l : list A) : Permutation (sort leb l) l.
Proof.
  induction l as [|a l IH]; simpl; [reflexivity|].
  now rewrite insert_perm, IH.
Qed.

Lemma unique_In (l : list A) (x : A) : In x (unique eqb leb l) <-> In x l.
Proof.
  unfold unique. split; intros H.
  - apply distinct_In. eapply Permutation_in; [apply sort_perm | exact H].
  - eapply Permutation_in; [symmetry; apply sort_perm|].
    now apply distinct_In.
Qed.

Lemma NoDup_unique (l : list A) : NoDup (unique eqb leb l).
Proof.
  unfold unique. eapply Permutation_NoDup; [symmetry; apply sort_perm|].
  apply NoDup_distinct.
Qed.

Lemma index_of_nth (l : list A) (x : A) (i : nat) :
  index_of eqb x l = Some i -> nth_error l i = Some x.
Proof.
  revert i; induction l as [|a l IH]; intros i; simpl; [discriminate|].
  destruct (eqb x a) eqn:E.
  - intros [= <-]. apply eqb_eq in E. now subst.
  - destruct (index_of eqb x l) as [k|]; simpl; [|discriminate].
    intros [= <-]. now apply IH.
Qed.

Lemma index_of_In (l : list A) (x : A) :
  In x l -> exists i, index_of eqb x l = Some i.
Proof.
  induction l as [|a l IH]; simpl; [tauto|].
  intros H. destruct (eqb x a) eqn:E; [now exists 0|].
  destruct H as [-> | H]; [now rewrite eqb_same in E|].
  destruct (IH H) as (i & ->). now exists (S i).
Qed.

(** What [transform] returns on values that were all fitted. *)
Lemma transform_fitted (cls y : list A) (d : A) :
  (forall x, In x y -> In x cls) ->
  exists codes,
    transform eqb (mk_LabelEncoder cls) y = Ok codes
    /\ List.length codes = List.length y
    /\ forall i, i < List.length y ->
         index_of eqb (nth i y d) cls = Some (nth i codes 0).
Proof.
  unfold transform. cbn [classes_].
  induction y as [|a y IH]; intros Hin.
  - exists []. repeat split. simpl. lia.
  - destruct (index_of_In cls a (Hin a (or_introl eq_refl))) as (k & Hk).
    destruct IH as (codes & Hc & Hlen & Hcodes).
    { intros x Hx. apply Hin. now right. }
    exists (k :: codes). cbn [traverse]. rewrite Hk. cbn [rbind].
    rewrite Hc. cbn [rbind]. repeat split.
    + simpl. now rewrite Hlen.
    + intros [|i] Hi; simpl; [exact Hk|]. apply Hcodes. simpl in Hi. lia.
Qed.

(** Fitting and transforming one vector: the codes are the positions in
    [classes_], distinct values get distinct codes, and every position of
    [classes_] is the code of some entry. *)
Lemma fit_transform_codes (y : list A) (d : A) :
  exists codes,
    fit_transform eqb leb y = Ok codes
    /\ List.length codes = List.length y
    /\ (forall i, i < List.length y ->
          nth i codes 0 < List.length (unique eqb leb y))
    /\ (forall i j, i < List.length y -> j < List.length y ->
          (nth i codes 0 = nth j codes 0 <-> nth i y d = nth j y d))
    /\ (forall c, c < List.length (unique eqb leb y) -> In c codes).
Proof.
  destruct (transform_fitted (unique eqb leb y) y d) as (codes & Hc & Hlen & Hcodes).
  { intros x Hx. now apply unique_In. }
  exists codes. split; [exact Hc|]. split; [exact Hlen|]. repeat split.
  - intros i Hi. apply Hcodes, index_of_nth in Hi.
    apply nth_error_Some. congruence.
  - intros Heq.
    pose proof (index_of_nth _ _ _ (Hcodes i H)) as Hi.
    pose proof (index_of_nth _ _ _ (Hcodes j H0)) as Hj.
    rewrite Heq in Hi. congruence.
  - intros Heq.
    pose proof (Hcodes i H) as Hi. pose proof (Hcodes j H0) as Hj.
    rewrite Heq in Hi. congruence.
  - intros c Hc'.
    destruct (nth_error (unique eqb leb y) c) as [x|] eqn:Hx;
      [|apply nth_error_None in Hx; lia].
    assert (Hxy : In x y) by (apply unique_In; eapply nth_error_In; eauto).
    destruct (In_nth y x d Hxy) as (i & Hi & Hxi).
    pose proof (Hcodes i Hi) as Hidx. rewrite Hxi in Hidx.
    apply index_of_nth in Hidx.
    assert (nth i codes 0 = c).
    { eapply (proj1 (NoDup_nth_error (unique eqb leb y)));
        [apply NoDup_unique | | congruence].
      apply nth_error_Some. congruence. }
    subst c. apply nth_In. lia.
Qed.

End EncoderFacts.

Section StringColumns.
Local Open Scope nat_scope.

Lemma length_unique_strings (y : list string) :
  List.length (unique String.eqb String.leb y) = n_distinct y.
Proof.
  unfold n_distinct. apply Permutation_length, NoDup_Permutation.
  - apply NoDup_unique, String.eqb_eq.
  - apply NoDup_nodup.
  - intros x. rewrite nodup_In. apply unique_In, String.eqb_eq.
Qed.

End StringColumns.

(** C5.  Label encoding of a string vector: [fit] then [transform] gives
    every entry a code in [0..n-1], [n] the number of distinct strings; two
    entries get the same code exactly when they are the same string; and
    each of the [n] codes is used. *)
Theorem label_encoding_indexes_distinct_strings (y : list string) :
  exists codes,
    transform String.eqb (fit String.eqb String.leb y) y = Ok codes
    /\ List.length codes = List.length y
    /\ (forall i, (i < List.length y)%nat ->
          (nth i codes 0 < n_distinct y)%nat)
    /\ (forall i j, (i < List.length y)%nat -> (j < List.length y)%nat ->
          (nth i codes 0%nat = nth j codes 0%nat
           <-> nth i y EmptyString = nth j y EmptyString))
    /\ (forall c, (c < n_distinct y)%nat -> In c codes).
Proof.
  destruct (fit_transform_codes String.eqb String.leb String.eqb_eq y EmptyString)
    as (codes & Hc & Hlen & Hlt & Hinj & Hsurj).
  rewrite length_unique_strings in Hlt, Hsurj.
  exists codes. repeat split; try assumption; apply Hinj; assumption.
Qed.

(** *** One hot encoding *)

Section OneHot.
Local Open Scope nat_scope.

Lemma hot_binary (v : nat) (cs : list nat) : Forall binary (map (hot v) cs).
Proof.
  apply Forall_forall. intros x Hx. apply in_map_iff in Hx as (c & <- & _).
  unfold hot, binary. destruct (c =? v); auto.
Qed.

(** Over the columns [s .. s+n-1] the row of code [v] has a single 1
    when [v] is one of them, and none otherwise. *)
Lemma ones_cons (x : value) (r : list value) :
  ones (x :: r) = (if py_eqb x (Num 1) then 1 else 0) + ones r.
Proof. unfold ones. simpl. now destruct (py_eqb x (Num 1)). Qed.

Lemma hot_is_one (v c : nat) : py_eqb (hot v c) (Num 1) = (c =? v).
Proof. unfold hot. now destruct (c =? v). Qed.

Lemma ones_hot (v s n : nat) :
  ones (map (hot v) (seq s n))
  = if (s <=? v) && (v <? s + n) then 1 else 0.
Proof.
  revert s; induction n as [|n IH]; intros s.
  - cbn [seq map]. unfold ones. simpl.
    destruct (Nat.leb_spec s v), (Nat.ltb_spec v (s + 0));
      simpl; try reflexivity; lia.
  - cbn [seq map]. rewrite ones_cons, hot_is_one, IH.
    destruct (Nat.eqb_spec s v), (Nat.leb_spec (S s) v), (Nat.leb_spec s v),
      (Nat.ltb_spec v (S s + n)), (Nat.ltb_spec v (s + S n));
      simpl; try reflexivity; lia.
Qed.

Lemma filter_all (f : nat -> bool) (l : list nat) :
  (forall x, In x l -> f x = true) -> filter f l = l.
Proof.
  induction l as [|x l IH]; intros H; simpl; [reflexivity|].
  rewrite (H x) by now left. f_equal. apply IH. intros y Hy. apply H.
  now right.
Qed.

Lemma filter_none (f : nat -> bool) (l : list nat) :
  (forall x, In x l -> f x = false) -> filter f l = [].
Proof.
  induction l as [|x l IH]; intros H; simpl; [reflexivity|].
  rewrite (H x) by now left. apply IH. intros y Hy. apply H. now right.
Qed.

(** When the codes are exactly [0..n-1], these are the active columns. *)
Lemma active_columns (codes : list nat) (n : nat) :
  0 < n ->
  (forall c, In c codes -> c < n) ->
  (forall c, c < n -> In c codes) ->
  filter (fun c => existsb (Nat.eqb c) codes) (seq 0 (S (list_max codes)))
  = seq 0 n.
Proof.
  intros Hn Hlt Hall.
  assert (Hmax : n <= S (list_max codes)).
  { assert (Hin : In (n - 1) codes) by (apply Hall; lia).
    assert (Hle : Forall (fun k => k <= list_max codes) codes)
      by now apply list_max_le.
    rewrite Forall_forall in Hle. specialize (Hle _ Hin). lia. }
  replace (S (list_max codes)) with (n + (S (list_max codes) - n)) by lia.
  rewrite seq_app, filter_app, filter_all, filter_none.
  - apply app_nil_r.
  - intros x Hx. apply in_seq in Hx.
    destruct (existsb (Nat.eqb x) codes) eqn:E; [|reflexivity].
    apply mem_In, Hlt in E. lia.
  - intros x Hx. apply in_seq in Hx. apply mem_In, Hall. lia.
Qed.

End OneHot.

(** C4.  A categorical column with [n] distinct values, label encoded and
    then one hot encoded, gives one row per entry; each row is a binary
    vector of length [n] with exactly one 1, at the entry's code. *)
Theorem one_hot_rows_have_one_set_position (y : list string) :
  y <> [] ->
  exists codes encoded,
    fit_transform String.eqb String.leb y = Ok codes
    /\ reshape_n_1 codes (List.length y) = Ok codes
    /\ onehot_fit_transform codes = Ok encoded
    /\ ncols encoded = n_distinct y
    /\ nrows encoded = List.length y
    /\ Forall (one_hot (n_distinct y)) (rows encoded)
    /\ (forall i, (i < List.length y)%nat ->
          nth (nth i codes 0%nat) (nth i (rows encoded) []) NaN = Num 1).
Proof.
  intros Hne.
  destruct (fit_transform_codes String.eqb String.leb String.eqb_eq y EmptyString)
    as (codes & Hc & Hlen & Hlt & _ & Hsurj).
  rewrite length_unique_strings in Hlt, Hsurj.
  assert (Hin : forall c, In c codes -> (c < n_distinct y)%nat).
  { intros c Hcin. destruct (In_nth codes c 0%nat Hcin) as (i & Hi & <-).
    apply Hlt. lia. }
  assert (Hn : (0 < n_distinct y)%nat).
  { destruct y as [|a y]; [congruence|].
    specialize (Hlt 0%nat). simpl in Hlt. lia. }
  pose proof (active_columns codes (n_distinct y) Hn Hin Hsurj) as Hactive.
  exists codes.
  exists {| ncols := n_distinct y;
            rows := map (fun v => map (hot v) (seq 0 (n_distinct y))) codes |}.
  split; [exact Hc|]. split.
  { unfold reshape_n_1. now rewrite Hlen, Nat.eqb_refl. }
  split.
  { unfold onehot_fit_transform.
    destruct codes as [|c codes]; [destruct y; simpl in *; congruence|].
    rewrite Hactive, length_seq. reflexivity. }
  split; [reflexivity|]. split.
  { unfold nrows. cbn [rows]. now rewrite length_map. }
  split.
  - cbn [rows]. apply Forall_forall. intros r Hr.
    apply in_map_iff in Hr as (v & <- & Hv).
    unfold one_hot. rewrite length_map, length_seq.
    split; [reflexivity|]. split; [apply hot_binary|].
    rewrite ones_hot. specialize (Hin v Hv).
    destruct (Nat.leb_spec 0 v), (Nat.ltb_spec v (0 + n_distinct y));
      simpl; try reflexivity; lia.
  - intros i Hi. cbn [rows].
    rewrite (nth_indep _ [] (map (hot 0) (seq 0 (n_distinct y))))
      by (rewrite length_map; lia).
    rewrite (map_nth (fun v => map (hot v) (seq 0 (n_distinct y))) codes 0%nat).
    set (v := nth i codes 0%nat).
    assert (Hv : (v < n_distinct y)%nat) by (apply Hlt; exact Hi).
    rewrite (nth_indep _ NaN (hot v 0)) by (rewrite length_map, length_seq; lia).
    rewrite (map_nth (hot v) (seq 0 (n_distinct y)) 0%nat), seq_nth by exact Hv.
    unfold hot. now rewrite Nat.eqb_refl.
Qed.

Lemma one_hot_rows_have_one_set_position_witness :
  exists codes encoded,
    fit_transform String.eqb String.leb ["left_up"; "central"; "left_up"]
    = Ok codes
    /\ reshape_n_1 codes 3 = Ok codes
    /\ onehot_fit_transform codes = Ok encoded
    /\ ncols encoded = n_distinct ["left_up"; "central"; "left_up"]
    /\ nrows encoded = 3%nat
    /\ Forall (one_hot (n_distinct ["left_up"; "central"; "left_up"]))
              (rows encoded)
    /\ (forall i, (i < 3)%nat ->
          nth (nth i codes 0%nat) (nth i (rows encoded) []) NaN = Num 1).
Proof.
  apply (one_hot_rows_have_one_set_position
           ["left_up"; "central"; "left_up"]).
  discriminate.
Defined.

(** *** Missing values *)

Section Missing.
Local Open Scope nat_scope.

Lemma traverse_nth {A B : Type} (f : A -> result B) (l : list A)
    (l' : list B) (i : nat) (x : A) :
  traverse f l = Ok l' -> nth_error l i = Some x ->
  exists y, f x = Ok y /\ nth_error l' i = Some y.
Proof.
  revert l' i; induction l as [|a l IH]; intros l' i Ht Hx.
  - destruct i; discriminate.
  - cbn [traverse] in Ht.
    destruct (f a) as [b|e] eqn:Ha; [|discriminate]. cbn [rbind] in Ht.
    destruct (traverse f l) as [bs|e] eqn:Hl; [|discriminate].
    cbn [rbind] in Ht. injection Ht as <-.
    destruct i as [|i]; simpl in *.
    + injection Hx as <-. now exists b.
    + now apply IH.
Qed.

Lemma traverse_length {A B : Type} (f : A -> result B) (l : list A)
    (l' : list B) :
  traverse f l = Ok l' -> List.length l' = List.length l.
Proof.
  revert l'; induction l as [|a l IH]; intros l' Ht.
  - injection Ht as <-. reflexivity.
  - cbn [traverse] in Ht.
    destruct (f a) as [b|e]; [|discriminate]. cbn [rbind] in Ht.
    destruct (traverse f l) as [bs|e]; [|discriminate].
    cbn [rbind] in Ht. injection Ht as <-. simpl. now rewrite (IH bs).
Qed.

(** An entry of [astype conv (set_where_eq s v X)]. *)
Lemma astype_set_where_entry (conv : value -> result value)
    (s v : value) (X out : ndarray) (i j : nat) (x : value) :
  astype conv (set_where_eq s v X) = Ok out ->
  entry X i j = Some x ->
  exists w, conv (if py_eqb x s then v else x) = Ok w
            /\ entry out i j = Some w.
Proof.
  unfold astype, rmap, entry. cbn [rows ncols set_where_eq].
  destruct (traverse (traverse conv) _) as [rs|e] eqn:Hrs; [|discriminate].
  cbn [rbind]. intros [= <-]. cbn [rows].
  destruct (nth_error (rows X) i) as [r|] eqn:Hr; [|discriminate].
  intros Hx.
  assert (Hr' : nth_error
                  (map (map (fun x => if py_eqb x s then v else x)) (rows X)) i
                = Some (map (fun x => if py_eqb x s then v else x) r)).
  { rewrite nth_error_map, Hr. reflexivity. }
  destruct (traverse_nth _ _ _ _ _ Hrs Hr') as (r1 & Hr1 & Hnth).
  rewrite Hnth.
  assert (Hx' : nth_error (map (fun x => if py_eqb x s then v else x) r) j
                = Some (if py_eqb x s then v else x)).
  { rewrite nth_error_map, Hx. reflexivity. }
  destruct (traverse_nth _ _ _ _ _ Hr1 Hx') as (w & Hw & Hnthw).
  now exists w.
Qed.

Lemma astype_shape (conv : value -> result value) (X out : ndarray) :
  astype conv X = Ok out ->
  ncols out = ncols X /\ nrows out = nrows X.
Proof.
  unfold astype, rmap, nrows.
  destruct (traverse (traverse conv) (rows X)) as [rs|e] eqn:Hrs;
    [|discriminate].
  cbn [rbind]. intros [= <-]. cbn [ncols rows]. split; [reflexivity|].
  now apply traverse_length in Hrs.
Qed.

(** A sum that goes through without meeting NaN is a number. *)
Lemma sum_from_number (l : list value) (acc : Q) (s : value) :
  sum_from (Num acc) l = Ok s ->
  (forall x, In x l -> x <> NaN) ->
  exists q, s = Num q.
Proof.
  revert acc; induction l as [|x l IH]; intros acc Hs Hl.
  - injection Hs as <-. now exists acc.
  - cbn [sum_from] in Hs. destruct x as [t|q|].
    + discriminate.
    + cbn [vadd rbind] in Hs. apply (IH _ Hs).
      intros y Hy. apply Hl. now right.
    + exfalso. apply (Hl NaN); [now left | reflexivity].
Qed.

Lemma mean_number (l : list value) (m : value) :
  mean l = Ok m -> l <> [] -> (forall x, In x l -> x <> NaN) ->
  exists q, m = Num q.
Proof.
  intros Hm Hne Hl. destruct l as [|x l]; [congruence|].
  unfold mean, sum in Hm.
  destruct (sum_from (Num 0) (x :: l)) as [s|e] eqn:Hs; [|discriminate].
  destruct (sum_from_number _ _ _ Hs Hl) as (q & ->).
  cbn [rbind vscale] in Hm. injection Hm as <-. eauto.
Qed.

Lemma present_not_NaN (col : list value) (x : value) :
  In x (present col) -> x <> NaN.
Proof.
  unfold present. rewrite filter_In. intros [_ H] ->. discriminate.
Qed.

End Missing.

Section Imputer.
Local Open Scope nat_scope.

Lemma nth_error_seq0 (n j : nat) : j < n -> nth_error (seq 0 n) j = Some j.
Proof.
  intros Hj. rewrite (nth_error_nth' _ 0) by (rewrite length_seq; lia).
  now rewrite seq_nth.
Qed.

(** An entry of the imputed table, when every column has an entry to
    average: a NaN becomes the mean of the column's other entries. *)
Lemma imputer_entry (X out : ndarray) (i j : nat) (w : value) :
  imputer_fit_transform X = Ok out ->
  (forall c, c < ncols X -> present (column_at X c) <> []) ->
  entry X i j = Some w -> j < ncols X ->
  exists m, mean (present (column_at X j)) = Ok (Num m)
            /\ entry out i j = Some (if is_nan w then Num m else w).
Proof.
  unfold imputer_fit_transform. cbn [bind Monad_result].
  destruct (statistics_ X) as [stats|e] eqn:Hstats; [|discriminate].
  cbn [rbind]. intros [= <-] Hcols Hw Hj.
  assert (Hstat : forall c, c < ncols X ->
            exists q, mean (present (column_at X c)) = Ok (Num q)
                      /\ nth c stats NaN = Num q).
  { intros c Hc. unfold statistics_ in Hstats.
    destruct (traverse_nth _ _ _ _ _ Hstats (nth_error_seq0 _ _ Hc))
      as (y & Hy & Hnth).
    destruct (mean_number _ _ Hy (Hcols c Hc)) as (q & ->).
    { intros x. apply present_not_NaN. }
    exists q. split; [exact Hy|]. now apply nth_error_nth. }
  rewrite filter_all.
  2:{ intros c Hc. apply in_seq in Hc.
      destruct (Hstat c) as (q & _ & ->); [lia | reflexivity]. }
  destruct (Hstat j Hj) as (m & Hm & Hnth). exists m. split; [exact Hm|].
  unfold entry in *. cbn [rows].
  destruct (nth_error (rows X) i) as [r|] eqn:Hr; [|discriminate].
  rewrite nth_error_map, Hr. cbn [option_map].
  rewrite nth_error_map, nth_error_seq0 by exact Hj. cbn [option_map].
  rewrite (nth_error_nth _ _ NaN Hw), Hnth. reflexivity.
Qed.

End Imputer.

(** C6, as the code has it.  The zero variant overwrites exactly the
    entries that equal ['?'], with zero, and converts every entry to a
    float.  The mean variant, on a table each of whose columns keeps an
    entry to average, replaces the entries that equal ['?'] and also those
    that are NaN once converted by the mean of the column's other entries;
    every other entry keeps its value. *)
Theorem missing_values_frame (conv : value -> result value) (X : ndarray) :
  conv NaN = Ok NaN ->
  rectangular X ->
  (forall out i j v,
     zero_fill conv X = Ok out -> entry X i j = Some v ->
     (py_eqb v (Str "?") = true ->
        exists z, conv (Num 0) = Ok z /\ entry out i j = Some z)
     /\ (py_eqb v (Str "?") = false ->
        exists w, conv v = Ok w /\ entry out i j = Some w))
  /\
  (forall X' out i j v,
     mark_missing conv X = Ok X' -> mean_impute conv X = Ok out ->
     (forall c, (c < ncols X)%nat -> present (column_at X' c) <> []) ->
     entry X i j = Some v ->
     exists m,
       mean (present (column_at X' j)) = Ok (Num m)
       /\ (py_eqb v (Str "?") = true -> entry out i j = Some (Num m))
       /\ (py_eqb v (Str "?") = false -> conv v = Ok NaN ->
             entry out i j = Some (Num m))
       /\ (py_eqb v (Str "?") = false ->
             forall w, conv v = Ok w -> w <> NaN -> entry out i j = Some w)).
Proof.
  intros Hnan Hrect. split.
  - intros out i j v Hout Hv. unfold zero_fill in Hout.
    destruct (astype_set_where_entry _ _ _ _ _ _ _ _ Hout Hv) as (w & Hw & Hentry).
    split; intros Hs; rewrite Hs in Hw; eauto.
  - intros X' out i j v HX' Hout Hcols Hv.
    unfold mean_impute in Hout. cbn [bind Monad_result] in Hout.
    rewrite HX' in Hout. cbn [rbind] in Hout.
    unfold mark_missing in HX'.
    destruct (astype_set_where_entry _ _ _ _ _ _ _ _ HX' Hv) as (w & Hw & Hentry).
    destruct (astype_shape _ _ _ HX') as (Hncols & _).
    cbn [set_where_eq ncols] in Hncols.
    assert (Hj : (j < ncols X')%nat).
    { rewrite Hncols. unfold entry in Hv.
      destruct (nth_error (rows X) i) as [r|] eqn:Hr; [|discriminate].
      unfold rectangular in Hrect. rewrite Forall_forall in Hrect.
      rewrite <- (Hrect r (nth_error_In _ _ Hr)).
      apply nth_error_Some. congruence. }
    rewrite <- Hncols in Hcols.
    destruct (imputer_entry X' out i j w Hout Hcols Hentry Hj) as (m & Hm & Hres).
    exists m. split; [exact Hm|]. repeat split.
    + intros Hs. rewrite Hs, Hnan in Hw. injection Hw as <-. exact Hres.
    + intros Hs Hv'. rewrite Hs, Hv' in Hw. injection Hw as <-. exact Hres.
    + intros Hs w' Hw' Hne. rewrite Hs, Hw' in Hw. injection Hw as <-.
      rewrite Hres. destruct w'; try reflexivity. congruence.
Qed.

Lemma missing_values_frame_witness :
  (exists out z,
     zero_fill Demo.demo_float32 Demo.table_with_sentinel = Ok out
     /\ Demo.demo_float32 (Num 0) = Ok z
     /\ entry out 0 0 = Some z)
  /\ (exists out m,
        mean_impute Demo.demo_float32 Demo.table_with_sentinel = Ok out
        /\ entry out 0 0 = Some (Num m)
        /\ entry out 1 0 = Some (Num 3)).
Proof.
  assert (Hrect : rectangular Demo.table_with_sentinel)
    by (repeat constructor).
  destruct (missing_values_frame Demo.demo_float32 Demo.table_with_sentinel
              eq_refl Hrect) as [Hzero Hmean].
  split.
  - set (out := {| ncols := 2;
                   rows := [ [Num 0; Num 1]; [Num 3; Num 2] ] |}).
    destruct (Hzero out 0%nat 0%nat (Str "?") eq_refl eq_refl) as [Hs _].
    destruct (Hs eq_refl) as (z & Hz & Hentry).
    exists out, z. repeat split; assumption.
  - set (X' := {| ncols := 2;
                  rows := [ [NaN; Num 1]; [Num 3; Num 2] ] |}).
    set (out := {| ncols := 2;
                   rows := [ [Num 3; Num 1]; [Num 3; Num 2] ] |}).
    assert (Hcols : forall c, (c < 2)%nat -> present (column_at X' c) <> []).
    { intros [|[|c]] Hc; [discriminate | discriminate | lia]. }
    destruct (Hmean X' out 0%nat 0%nat (Str "?") eq_refl eq_refl Hcols eq_refl)
      as (m & _ & Hs & _).
    destruct (Hmean X' out 1%nat 0%nat (Num 3) eq_refl eq_refl Hcols eq_refl)
      as (_ & _ & _ & _ & Hkeep).
    exists out, m. split; [reflexivity|]. split; [exact (Hs eq_refl)|].
    apply (Hkeep eq_refl (Num 3) eq_refl). discriminate.
Defined.

(** C6 as stated fails for the mean variant: an entry that is NaN, not the
    sentinel, is replaced as well; and a column that holds nothing but the
    sentinel is not filled with a mean but dropped, so that the entries to
    its right change place. *)
Lemma missing_values_frame_counterexample :
  (entry Demo.table_with_nan 0 0 = Some NaN
   /\ py_eqb NaN (Str "?") = false
   /\ exists out,
        mean_impute Demo.demo_float32 Demo.table_with_nan = Ok out
        /\ entry out 0 0 = Some (Num (4 # 2)))
  /\
  (entry Demo.table_with_empty_column 0 1 = Some (Num 1)
   /\ exists out,
        mean_impute Demo.demo_float32 Demo.table_with_empty_column = Ok out
        /\ ncols out = 1%nat
        /\ entry out 0 0 = Some (Num 1)
        /\ entry out 0 1 = None).
Proof.
  split.
  - split; [reflexivity|]. split; [reflexivity|].
    eexists. split; [vm_compute; reflexivity | reflexivity].
  - split; [reflexivity|].
    eexists. split; [vm_compute; reflexivity | repeat split].
Qed.

(** *** The shape of the cells *)

Section Shape.
Context {L : Library}.
Import Unrolled.

(** One pass of the loop: encode the column, then start or extend the
    accumulated table. *)
Lemma encode_column_step (X : ndarray) (i : nat) (acc : option ndarray) :
  encode_column X i acc
  = rbind (onehot_column X i) (fun feature =>
      match acc with
      | None => Ok (Some feature)
      | Some e => rmap Some (concatenate1 e feature)
      end).
Proof.
  unfold encode_column, onehot_column. cbn [bind Monad_result].
  destruct (column X i) as [x_i|e]; [|reflexivity]. cbn [rbind].
  destruct (fit_transform py_eqb value_leb x_i) as [f|e]; [|reflexivity].
  cbn [rbind].
  destruct (reshape_n_1 f (nrows X)) as [f'|e]; [|reflexivity]. cbn [rbind].
  destruct (onehot_fit_transform f') as [f''|e]; reflexivity.
Qed.

(** On nine columns the loop is the straight-line encoding. *)
Lemma encode_loop_unrolled (X : ndarray) :
  ncols X = 9%nat ->
  for_each (seq 0 (ncols X)) (encode_column X) None
  = rmap Some (encode_straight_line X).
Proof.
  intros ->. unfold encode_straight_line.
  cbn [seq for_each bind Monad_result].
  repeat (try rewrite encode_column_step; unfold rmap; cbn [rbind];
          match goal with
          | |- context [rbind (onehot_column X ?i) _] =>
              destruct (onehot_column X i); cbn [rbind]; [|reflexivity]
          | |- context [rbind (concatenate1 ?a ?b) _] =>
              destruct (concatenate1 a b); cbn [rbind]; [|reflexivity]
          end).
  reflexivity.
Qed.

(** When the class column is read, [X] has nine columns. *)
Lemma nine_feature_columns (dataset : ndarray) (Y : list value) :
  column dataset 9 = Ok Y -> ncols (slice_cols dataset 0 9) = 9%nat.
Proof.
  unfold column. destruct (Nat.ltb_spec 9 (ncols dataset)); [|discriminate].
  intros _. unfold slice_cols. cbn [ncols]. lia.
Qed.

(** Once a pass has started the encoded table, every later pass extends
    it. *)
Lemma for_each_started (X : ndarray) (cols : list nat) (e : ndarray)
    (acc : option ndarray) :
  for_each cols (encode_column X) (Some e) = Ok acc -> acc <> None.
Proof.
  revert e; induction cols as [|i cols IH]; intros e.
  - cbn [for_each]. intros [= <-]. discriminate.
  - cbn [for_each bind Monad_result]. rewrite encode_column_step.
    destruct (onehot_column X i) as [f|]; [|discriminate]. cbn [rbind].
    unfold rmap.
    destruct (concatenate1 e f) as [e'|]; [|discriminate]. cbn [rbind].
    apply IH.
Qed.

(** The loop never leaves [encoded_x] at [None] after a pass. *)
Lemma for_each_none (X : ndarray) (cols : list nat) :
  for_each cols (encode_column X) None = Ok None -> cols = [].
Proof.
  destruct cols as [|i cols]; [reflexivity|]. intros Hloop. exfalso.
  cbn [for_each bind Monad_result] in Hloop.
  rewrite encode_column_step in Hloop.
  destruct (onehot_column X i) as [f|]; [|discriminate].
  cbn [rbind] in Hloop. now apply for_each_started in Hloop.
Qed.

(** A loop over two lists of indices is the loop over the first, then the
    loop over the second. *)
Lemma for_each_app {S : Type} (xs ys : list nat)
    (body : nat -> S -> result S) (s : S) :
  for_each (xs ++ ys) body s
  = rbind (for_each xs body s) (fun s' => for_each ys body s').
Proof.
  revert s; induction xs as [|i xs IH]; intros s; [reflexivity|].
  cbn [app for_each bind Monad_result].
  destruct (body i s) as [s'|e]; [|reflexivity]. cbn [rbind]. apply IH.
Qed.

End Shape.

(** Run both sides through their statements, call by call. *)
Ltac same_run :=
  cbn [bind ret Monad_cell Monad_result cell_bind call print];
  repeat (match goal with
          | |- context [match ?r with Ok _ => _ | Raise _ => _ end] =>
              destruct r
          | p : (_ * _)%type |- _ => destruct p
          end;
          cbn [bind ret Monad_cell Monad_result cell_bind call print rbind
               app fst snd]);
  try reflexivity.

(** C7.  Every cell is equal to a straight-line composition of library
    calls in the fixed order: the five train/test cells to the six stages
    load, split/encode, fit, predict, score and print, the two cross
    validation cells to load, split, [cross_val_score] and print.  (The
    preparation cells show the model as part of the fit stage, the one hot
    encoding cell the shape as part of the encode stage.)  The one
    hot encoding cell is written with a loop over the columns of [X],
    whose body tests [encoded_x is None]; the loop always makes nine
    passes, the test depends on the pass only (it holds in the first pass
    and in no other), and the cell equals the composition that encodes the
    nine columns one after the other. *)
Theorem cells_are_straight_line_compositions (L : Library) (global : rng) :
  cell_iris global
  = StraightLine.pipeline
      (call (read_csv "iris.csv" false))
      (StraightLine.split_encode_iris global)
      StraightLine.fit_and_show StraightLine.predict_and_round
      StraightLine.score_accuracy StraightLine.print_accuracy
  /\ cell_breast_cancer global
     = StraightLine.pipeline
         (call (read_csv "datasets-uci-breast-cancer.csv" false))
         (StraightLine.split_encode_breast_cancer global)
         StraightLine.fit_and_show StraightLine.predict_and_round
         StraightLine.score_accuracy StraightLine.print_accuracy
  /\ cell_horse_colic_zero global
     = StraightLine.pipeline
         (call (read_csv "horse-colic.csv" true))
         (StraightLine.split_encode_horse_colic_zero global)
         StraightLine.fit_and_show StraightLine.predict_and_round
         StraightLine.score_accuracy StraightLine.print_accuracy
  /\ cell_horse_colic_impute global
     = StraightLine.pipeline
         (call (read_csv "horse-colic.csv" true))
         (StraightLine.split_encode_horse_colic_impute global)
         StraightLine.fit_and_show StraightLine.predict_and_round
         StraightLine.score_accuracy StraightLine.print_accuracy
  /\ cell_pima_split global
     = StraightLine.pipeline
         (call (loadtxt "pima-indians-diabetes.csv"))
         (StraightLine.split_pima global)
         StraightLine.fit_only StraightLine.predict_and_round
         StraightLine.score_accuracy StraightLine.print_accuracy
  /\ cell_pima_kfold
     = StraightLine.cv_pipeline
         (call (loadtxt "pima-indians-diabetes.csv"))
         StraightLine.split_kfold StraightLine.cross_validate
         StraightLine.print_summary
  /\ cell_pima_stratified
     = StraightLine.cv_pipeline
         (call (loadtxt "pima-indians-diabetes.csv"))
         StraightLine.split_stratified StraightLine.cross_validate
         StraightLine.print_summary
  /\ (forall dataset Y,
        column dataset 9 = Ok Y ->
        seq 0 (ncols (slice_cols dataset 0 9)) = [0; 1; 2; 3; 4; 5; 6; 7; 8]%nat)
  /\ (forall X cols encoded_x,
        for_each cols (encode_column X) None = Ok encoded_x ->
        (encoded_x = None <-> cols = [])).
Proof.
  unfold StraightLine.pipeline, StraightLine.cv_pipeline,
    StraightLine.split_encode_iris, StraightLine.split_encode_breast_cancer,
    StraightLine.split_encode_horse_colic_zero,
    StraightLine.split_encode_horse_colic_impute, StraightLine.split_pima,
    StraightLine.encode_class_and_split, StraightLine.fit_and_show,
    StraightLine.fit_only, StraightLine.predict_and_round,
    StraightLine.score_accuracy, StraightLine.print_accuracy,
    StraightLine.split_kfold, StraightLine.split_stratified,
    StraightLine.cross_validate, StraightLine.print_summary,
    cell_iris, cell_breast_cancer, cell_horse_colic_zero,
    cell_horse_colic_impute, cell_pima_split, cell_pima_kfold,
    cell_pima_stratified, print_model.
  split; [same_run|]. split.
  { destruct (read_csv "datasets-uci-breast-cancer.csv" false) as [dataset|e];
      [|reflexivity].
    cbn [bind Monad_cell cell_bind call].
    destruct (column dataset 9) as [Y|e] eqn:HY; [|reflexivity].
    rewrite (encode_loop_unrolled _ (nine_feature_columns _ _ HY)).
    unfold rmap.
    destruct (Unrolled.encode_straight_line (slice_cols dataset 0 9))
      as [encoded_x|e]; [|reflexivity].
    cbn [rbind print_shape]. same_run. }
  split; [same_run|]. split; [same_run|]. split; [same_run|].
  split; [same_run|]. split; [same_run|]. split.
  - intros dataset Y HY. now rewrite (nine_feature_columns _ _ HY).
  - intros X cols encoded_x Hloop. split.
    + intros ->. now apply (for_each_none X).
    + intros ->. cbn [for_each] in Hloop. now injection Hloop as <-.
Qed.

(** *** Randomness *)

(** The split of a cell that left [random_state] unset would follow the
    global generator: here two states give two different test sets. *)
Example unseeded_split_follows_global_state :
  let L := Demo.demo_library Demo.files in
  train_test_split RandomState permutation 0%Z Demo.pima_csv
                   (repeat (Num 0) 10) (33 # 100) None
  <> train_test_split RandomState permutation 1%Z Demo.pima_csv
                      (repeat (Num 0) 10) (33 # 100) None.
Proof. vm_compute. discriminate. Qed.

(** C10.  Every randomised step is seeded with 7, so no cell depends on
    the state of the global random generator: from any two states the
    seven cells split their rows alike and end with the same output and
    the same result. *)
Theorem cells_are_deterministic (L : Library) (g1 g2 : rng) :
  runs g1 = runs g2
  /\ (forall X y,
        train_test_split RandomState permutation g1 X y (33 # 100) (Some 7%Z)
        = train_test_split RandomState permutation g2 X y (33 # 100) (Some 7%Z))
  /\ (forall n, KFold n 10 (Some 7%Z) = KFold n 10 None).
Proof.
  split; [reflexivity|]. split; reflexivity.
Qed.

(** *** Faults *)

Section Runs.
Context {L : Library}.

(** A sequence fails where its first part fails, or else where the rest
    fails; nothing catches a fault. *)
Lemma bind_failure {A B : Type} (c : cell A) (k : A -> cell B)
    (out : list string) (e : fault) :
  bind c k = (out, Raise e) ->
  c = (out, Raise e)
  \/ exists o1 a o2, c = (o1, Ok a) /\ k a = (o2, Raise e)
                     /\ out = (o1 ++ o2)%list.
Proof.
  cbn [bind Monad_cell]. unfold cell_bind.
  destruct c as [o1 [a|e1]].
  - destruct (k a) as [o2 r] eqn:Hk. intros [= <- ->].
    right. now exists o1, a, o2.
  - intros [= <- <-]. now left.
Qed.

Lemma bind_success {A B : Type} (c : cell A) (k : A -> cell B)
    (out : list string) (b : B) :
  bind c k = (out, Ok b) ->
  exists o1 a o2, c = (o1, Ok a) /\ k a = (o2, Ok b)
                  /\ out = (o1 ++ o2)%list.
Proof.
  cbn [bind Monad_cell]. unfold cell_bind.
  destruct c as [o1 [a|e1]].
  - destruct (k a) as [o2 r] eqn:Hk. intros [= <- ->].
    now exists o1, a, o2.
  - discriminate.
Qed.

End Runs.


Section Statements.
Context {L : Library}.

Lemma call_failure {A : Type} (r : result A) (out : list string) (e : fault) :
  call r = (out, Raise e) -> out = [] /\ r = Raise e.
Proof. unfold call. intros [= <- ->]. now split. Qed.

Lemma call_success {A : Type} (r : result A) (out : list string) (a : A) :
  call r = (out, Ok a) -> out = [] /\ r = Ok a.
Proof. unfold call. intros [= <- ->]. now split. Qed.

Lemma print_success (line : string) (out : list string) (a : unit) :
  print line = (out, Ok a) -> out = [line].
Proof. unfold print. now intros [= <- _]. Qed.

Lemma print_failure (line : string) (out : list string) (e : fault) :
  print line = (out, Raise e) -> False.
Proof. unfold print. discriminate. Qed.

Lemma print_shape_failure (x : option ndarray) (out : list string)
    (e : fault) :
  print_shape x = (out, Raise e) -> out = [].
Proof. destruct x; cbn; [discriminate | now intros [= <- _]]. Qed.

Lemma print_shape_success (x : option ndarray) (out : list string)
    (a : ndarray) :
  print_shape x = (out, Ok a) ->
  x = Some a
  /\ out = ["('X shape: : ', (" ++ str_nat (nrows a) ++ ", "
            ++ str_nat (ncols a) ++ "))"].
Proof. destruct x; cbn; [|discriminate]. intros [= <- <-]. now split. Qed.

Lemma rbind_success {A B : Type} (r : result A) (k : A -> result B) (b : B) :
  rbind r k = Ok b -> exists a, r = Ok a /\ k a = Ok b.
Proof. destruct r as [a|e]; [|discriminate]. intros H. now exists a. Qed.

End Statements.

(** What a statement that went through has printed. *)
Ltac known_output Hc :=
  first
    [ apply call_success in Hc as [-> Hc]
    | apply print_success in Hc as ->
    | apply print_shape_success in Hc as [-> ->] ].

(** Follow a failed run to the statement that raised the fault. *)
Ltac failed_run H :=
  lazymatch type of H with
  | bind _ _ = (_, Raise _) =>
      let o1 := fresh "o" in let a := fresh "a" in
      let o2 := fresh "o" in let Hc := fresh "Hc" in
      apply bind_failure in H as [H | (o1 & a & o2 & Hc & H & ->)];
      [ failed_run H | known_output Hc; cbv beta in H; failed_run H ]
  | call _ = _ => apply call_failure in H as [-> H]
  | print _ = _ => apply print_failure in H; contradiction
  | print_model _ = _ => apply print_failure in H; contradiction
  | print_shape _ = _ => apply print_shape_failure in H as ->
  | _ => match type of H with
         | context [match ?p with pair _ _ => _ end] =>
             is_var p; destruct p; failed_run H
         end
  end.

(** Follow a run that finished through all its statements. *)
Ltac finished_run H :=
  lazymatch type of H with
  | bind _ _ = (_, Ok _) =>
      let o1 := fresh "o" in let a := fresh "a" in
      let o2 := fresh "o" in let Hc := fresh "Hc" in
      apply bind_success in H as (o1 & a & o2 & Hc & H & ->);
      known_output Hc; cbv beta in H; finished_run H
  | print _ = _ => apply print_success in H as ->
  | _ => match type of H with
         | context [match ?p with pair _ _ => _ end] =>
             is_var p; destruct p; finished_run H
         end
  end.

(** The lines printed before a fault are not accuracy lines. *)
Ltac no_accuracy :=
  let line := fresh "line" in
  let Hin := fresh "Hin" in
  intros line Hin; cbn [app In] in Hin;
  repeat (destruct Hin as [<- | Hin]; [reflexivity|]); contradiction.

(** Run a cell through the statements whose outcome is known. *)
Ltac run_known :=
  unfold cell_iris, cell_breast_cancer, cell_horse_colic_zero,
    cell_horse_colic_impute, cell_pima_split, cell_pima_kfold,
    cell_pima_stratified, summary_line, print_model;
  cbn [bind ret Monad_cell Monad_result cell_bind call print rbind app];
  repeat (match goal with
          | H : _ = Ok _ |- _ => progress rewrite H
          | H : _ = Raise _ |- _ => progress rewrite H
          end;
          cbn [bind ret Monad_cell Monad_result cell_bind call print
               print_shape rbind app]);
  try reflexivity.

(** Go from statement to statement: a fault ends the cell, a value leads
    to the next statement. *)
Ltac step_through :=
  repeat (lazymatch goal with
          | |- cell_step _ _ _ _ =>
              let e := fresh "e" in let He := fresh "He" in
              let a := fresh "a" in let Ha := fresh "Ha" in
              split; [intros e He; run_known | intros a Ha]
          | |- class_steps _ _ _ _ _ => unfold class_steps
          | |- cross_validation_steps _ _ _ _ =>
              unfold cross_validation_steps
          | |- evaluation_steps _ _ _ ?p =>
              unfold evaluation_steps; destruct p as [[[? ?] ?] ?];
              cbv zeta; cbn [app]
          | |- _ = (_, Ok tt) => run_known
          end).

(** C8.  No cell handles a fault.  In each of the seven cells every
    statement that can fail, from the load call to the print, hands its
    fault on: when it raises, the cell ends there with that very fault,
    and what it has printed is what the statements before had printed;
    only when all statements return does the cell end normally, with the
    accuracy line as its last output.  The same holds inside a pass of the
    encoding loop and for the loop as a whole.  So a cell that failed has
    printed no accuracy line. *)
Theorem cells_propagate_faults (L : Library) (global : rng) :
  (let c := cell_iris global in
   cell_step c [] (read_csv "iris.csv" false) (fun dataset =>
   cell_step c [] (column dataset 4) (fun Y =>
   class_steps global c [] (slice_cols dataset 0 4) Y)))
  /\ (let c := cell_breast_cancer global in
      cell_step c [] (read_csv "datasets-uci-breast-cancer.csv" false)
        (fun dataset =>
      cell_step c [] (column dataset 9) (fun Y =>
      let X := slice_cols dataset 0 9 in
      cell_step c [] (for_each (seq 0 (ncols X)) (encode_column X) None)
        (fun encoded_x =>
      match encoded_x with
      | None => False
      | Some e => class_steps global c [shape_line e] e Y
      end))))
  /\ (let c := cell_horse_colic_zero global in
      cell_step c [] (read_csv "horse-colic.csv" true) (fun dataset =>
      cell_step c [] (column dataset 27) (fun Y =>
      cell_step c []
        (astype float32
           (set_where_eq (Str "?") (Num 0) (slice_cols dataset 0 27)))
        (fun X =>
      class_steps global c [] X Y))))
  /\ (let c := cell_horse_colic_impute global in
      cell_step c [] (read_csv "horse-colic.csv" true) (fun dataset =>
      cell_step c [] (column dataset 27) (fun Y =>
      cell_step c []
        (astype float32
           (set_where_eq (Str "?") NaN (slice_cols dataset 0 27)))
        (fun X =>
      cell_step c [] (imputer_fit_transform X) (fun imputed_x =>
      class_steps global c [] imputed_x Y)))))
  /\ (let c := cell_pima_split global in
      cell_step c [] (loadtxt "pima-indians-diabetes.csv") (fun dataset =>
      cell_step c [] (array_slice_cols dataset 0 8) (fun X =>
      cell_step c [] (array_column dataset 8) (fun Y =>
      cell_step c []
        (train_test_split RandomState permutation global
           X Y (33 # 100) (Some 7%Z))
        (evaluation_steps c [] false)))))
  /\ (let c := cell_pima_kfold in
      cell_step c [] (loadtxt "pima-indians-diabetes.csv") (fun dataset =>
      cell_step c [] (array_slice_cols dataset 0 8) (fun X =>
      cell_step c [] (array_column dataset 8) (fun Y =>
      cell_step c [] (KFold (nrows X) 10 (Some 7%Z)) (fun kfold =>
      cross_validation_steps c X Y kfold)))))
  /\ (let c := cell_pima_stratified in
      cell_step c [] (loadtxt "pima-indians-diabetes.csv") (fun dataset =>
      cell_step c [] (array_slice_cols dataset 0 8) (fun X =>
      cell_step c [] (array_column dataset 8) (fun Y =>
      cell_step c [] (StratifiedKFold Y 10 (Some 7%Z)) (fun kfold =>
      cross_validation_steps c X Y kfold)))))
  /\ (forall X i encoded_x,
        let pass := encode_column X i encoded_x in
        call_step pass (column X i) (fun x_i =>
        call_step pass (fit_transform py_eqb value_leb x_i) (fun feature =>
        call_step pass (reshape_n_1 feature (nrows X)) (fun feature' =>
        call_step pass (onehot_fit_transform feature') (fun feature'' =>
        match encoded_x with
        | None => pass = Ok (Some feature'')
        | Some e =>
            call_step pass (concatenate1 e feature'') (fun e' =>
            pass = Ok (Some e'))
        end)))))
  /\ (forall X done i rest encoded_x e,
        for_each done (encode_column X) None = Ok encoded_x ->
        encode_column X i encoded_x = Raise e ->
        for_each (done ++ i :: rest) (encode_column X) None = Raise e)
  /\ (forall r out e,
        In r (runs global) -> run r = (out, Raise e) ->
        no_accuracy_output out).
Proof.
  cbv zeta.
  split; [step_through|].
  split.
  { step_through.
    match goal with
    | HY : column _ 9 = Ok _, Hloop : for_each _ _ None = Ok ?x |- _ =>
        destruct x as [encoded_x|];
        [|apply for_each_none in Hloop;
          rewrite (nine_feature_columns _ _ HY) in Hloop; discriminate]
    end.
    unfold shape_line. step_through. }
  split; [step_through|]. split; [step_through|]. split; [step_through|].
  split; [step_through|]. split; [step_through|].
  split.
  { intros X i encoded_x. cbv zeta. unfold call_step, encode_column.
    cbn [bind ret Monad_result].
    do 4 (split; [intros e He; rewrite He; reflexivity
                 | let Ha := fresh "Ha" in
                   intros ? Ha; rewrite Ha; cbn [rbind]]).
    destruct encoded_x as [e0|]; [|reflexivity].
    split; [intros e He; rewrite He; reflexivity
           | intros ? Hjoin; rewrite Hjoin; reflexivity]. }
  split.
  { intros X done i rest encoded_x e Hdone Hpass.
    rewrite for_each_app, Hdone. cbn [rbind for_each bind Monad_result].
    now rewrite Hpass. }
  intros r out e Hin H. cbn [runs In] in Hin.
  repeat (destruct Hin as [<- | Hin]); try contradiction; cbn [run] in H;
    unfold cell_iris, cell_breast_cancer, cell_horse_colic_zero,
      cell_horse_colic_impute, cell_pima_split, cell_pima_kfold,
      cell_pima_stratified in H;
    failed_run H; no_accuracy.
Qed.

(** *** Formatted output *)

Section Formatting.

Lemma digit_is_digit (k : N) : (k < 10)%N -> is_digit (digit k).
Proof.
  intros Hk. unfold is_digit, digit.
  rewrite N_ascii_embedding by lia. lia.
Qed.

Lemma digits_fuel_all_digits (fuel : nat) (n : N) (acc : string) :
  all_digits acc -> all_digits (digits_fuel fuel n acc).
Proof.
  revert n acc; induction fuel as [|fuel IH]; intros n acc Hacc;
    [exact Hacc|].
  cbn [digits_fuel].
  assert (Hd : all_digits (String (digit (n mod 10)) acc)).
  { split; [|exact Hacc]. apply digit_is_digit.
    apply N.mod_upper_bound. lia. }
  destruct (n / 10 =? 0)%N; [exact Hd | now apply IH].
Qed.

Lemma str_N_all_digits (n : N) : all_digits (str_N n).
Proof. apply digits_fuel_all_digits. exact I. Qed.

(** ["%.2f"] shows a number with exactly two decimals: an optional sign,
    digits, a point, two digits. *)
Lemma fmt_2f_two_decimals (q : Q) :
  exists sign whole d1 d2,
    fmt_2f q = sign ++ whole ++ "." ++ String d1 (String d2 "")
    /\ (sign = "" \/ sign = "-")
    /\ all_digits whole /\ is_digit d1 /\ is_digit d2.
Proof.
  unfold fmt_2f.
  exists (if (Qnum q <? 0)%Z then "-" else ""), (str_N (hundredths q / 100)),
    (digit ((hundredths q / 10) mod 10)), (digit (hundredths q mod 10)).
  split; [reflexivity|]. split; [destruct (Qnum q <? 0)%Z; auto|].
  split; [apply str_N_all_digits|].
  split; apply digit_is_digit; apply N.mod_upper_bound; lia.
Qed.

(** The two templates, filled in. *)
Lemma py_format_accuracy (a : value) :
  py_format "Accuracy: %.2f%%" [a]
  = rmap (fun x => "Accuracy: " ++ x ++ "%") (fmt_value a).
Proof. cbn. destruct (fmt_value a); reflexivity. Qed.

Lemma py_format_summary (a b : value) :
  py_format "Accuracy: %.2f%% (%.2f%%)" [a; b]
  = rbind (fmt_value a) (fun x =>
      rmap (fun y => "Accuracy: " ++ x ++ "% (" ++ y ++ "%)") (fmt_value b)).
Proof.
  cbn. destruct (fmt_value a); [|reflexivity]. cbn.
  destruct (fmt_value b); reflexivity.
Qed.

(** What the print statement of a train/test cell writes. *)
Lemma accuracy_line_shape (accuracy : value) (line : string) :
  (a <- Float64.times accuracy 100 ;; py_format "Accuracy: %.2f%%" [a])
  = Ok line ->
  exists percent shown,
    Float64.times accuracy 100 = Ok percent
    /\ py_format "Accuracy: %.2f%%" [percent]
       = Ok ("Accuracy: " ++ shown ++ "%")
    /\ line = "Accuracy: " ++ shown ++ "%".
Proof.
  cbn [bind Monad_result].
  destruct (Float64.times accuracy 100) as [percent|]; [|discriminate].
  cbn [rbind]. rewrite py_format_accuracy.
  destruct (fmt_value percent) as [shown|] eqn:Hshown; [|discriminate].
  cbn [rmap rbind]. intros [= <-]. exists percent, shown.
  rewrite py_format_accuracy, Hshown. now repeat split.
Qed.

(** What the print statement of a cross validation cell writes. *)
Lemma summary_line_shape {L : Library} (results : list value)
    (line : string) :
  summary_line results = Ok line ->
  exists mean_ percent shown std_ spread deviation,
    mean_float64 results = Ok mean_
    /\ Float64.times mean_ 100 = Ok percent
    /\ py_format "Accuracy: %.2f%%" [percent]
       = Ok ("Accuracy: " ++ shown ++ "%")
    /\ std_float64 results = Ok std_
    /\ Float64.times std_ 100 = Ok spread
    /\ fmt_value spread = Ok deviation
    /\ line = "Accuracy: " ++ shown ++ "%" ++ " (" ++ deviation ++ "%)".
Proof.
  unfold summary_line. cbn [bind Monad_result].
  destruct (mean_float64 results) as [mean_|]; [|discriminate].
  cbn [rbind].
  destruct (Float64.times mean_ 100) as [percent|] eqn:Hpercent;
    [|discriminate].
  cbn [rbind].
  destruct (std_float64 results) as [std_|]; [|discriminate]. cbn [rbind].
  destruct (Float64.times std_ 100) as [spread|] eqn:Hspread;
    [|discriminate].
  cbn [rbind]. rewrite py_format_summary.
  destruct (fmt_value percent) as [shown|] eqn:Hshown; [|discriminate].
  cbn [rbind].
  destruct (fmt_value spread) as [deviation|] eqn:Hdeviation; [|discriminate].
  cbn [rmap rbind]. intros [= <-].
  exists mean_, percent, shown, std_, spread, deviation.
  rewrite py_format_accuracy, Hshown. now repeat split.
Qed.

End Formatting.

(** Name the texts printed before the last one. *)
Ltac split_output :=
  cbn [app];
  lazymatch goal with
  | |- exists before line, [?l] = _ /\ _ => exists [], l
  | |- exists before line, [?a; ?l] = _ /\ _ => exists [a], l
  | |- exists before line, [?a; ?b; ?l] = _ /\ _ => exists [a; b], l
  end;
  split; [reflexivity|]; split; [no_accuracy|].

(** C9.  A cell that finishes prints its accuracy last, and nothing that
    looks like an accuracy before.  The text is the template
    ["Accuracy: %.2f%%"] filled with the accuracy times 100: in the five
    train/test cells the accuracy of the rounded predictions on the test
    rows, and nothing after it; in the two cross validation cells the mean
    of the scores, followed in brackets by their standard deviation, which
    is shown in the same way, times 100 under ["%.2f"] with a percent
    sign.  A number is shown with exactly two decimals. *)
Theorem accuracy_lines_follow_the_template (L : Library) (global : rng) :
  (forall r out,
     In r (runs global) -> run r = (out, Ok tt) ->
     exists before line,
       out = (before ++ [line])%list
       /\ no_accuracy_output before
       /\ exists accuracy percent shown suffix,
            (if cross_validated r
             then exists X Y kfold results std_ spread deviation,
                    cross_val_score XGBClassifier_fit predict X Y kfold
                    = Ok results
                    /\ mean_float64 results = Ok accuracy
                    /\ std_float64 results = Ok std_
                    /\ Float64.times std_ 100 = Ok spread
                    /\ fmt_value spread = Ok deviation
                    /\ suffix = " (" ++ deviation ++ "%)"
             else exists X_train y_train X_test y_test m y_pred predictions,
                    XGBClassifier_fit X_train y_train = Ok m
                    /\ predict m X_test = Ok y_pred
                    /\ traverse round y_pred = Ok predictions
                    /\ accuracy_score y_test predictions = Ok accuracy
                    /\ suffix = "")
            /\ Float64.times accuracy 100 = Ok percent
            /\ py_format "Accuracy: %.2f%%" [percent]
               = Ok ("Accuracy: " ++ shown ++ "%")
            /\ line = "Accuracy: " ++ shown ++ "%" ++ suffix)
  /\ (forall q,
        py_format "Accuracy: %.2f%%" [Num q]
        = Ok ("Accuracy: " ++ fmt_2f q ++ "%")
        /\ fmt_value (Num q) = Ok (fmt_2f q))
  /\ (forall q,
        exists sign whole d1 d2,
          fmt_2f q = sign ++ whole ++ "." ++ String d1 (String d2 "")
          /\ (sign = "" \/ sign = "-")
          /\ all_digits whole /\ is_digit d1 /\ is_digit d2).
Proof.
  split; [|split].
  - intros r out Hin H. cbn [runs In] in Hin.
    repeat (destruct Hin as [<- | Hin]); try contradiction;
      cbn [run cross_validated] in *;
      unfold cell_iris, cell_breast_cancer, cell_horse_colic_zero,
        cell_horse_colic_impute, cell_pima_split, cell_pima_kfold,
        cell_pima_stratified in H;
      finished_run H; split_output.
    all: try match goal with
         | Hline : bind (Float64.times ?acc 100) _ = Ok _ |- _ =>
             apply accuracy_line_shape in Hline
               as (percent & shown & Hp & Hf & ->);
             exists acc, percent, shown, "";
             split; [do 7 eexists; eauto 6|];
             split; [exact Hp|]; split; [exact Hf | reflexivity]
         end.
    all: match goal with
         | Hline : summary_line ?results = Ok _ |- _ =>
             apply summary_line_shape in Hline
               as (mean_ & percent & shown & std_ & spread & deviation
                   & Hm & Hp & Hf & Hs & Hsp & Hd & ->);
             exists mean_, percent, shown, (" (" ++ deviation ++ "%)");
             split; [do 3 eexists; exists results, std_, spread, deviation;
                     eauto 7|];
             split; [exact Hp|]; split; [exact Hf | reflexivity]
         end.
  - intros q. split; reflexivity.
  - apply fmt_2f_two_decimals.
Qed.

Lemma accuracy_lines_follow_the_template_witness :
  exists before line,
    ["Accuracy: 40.00% (48.99%)"] = (before ++ [line])%list
    /\ no_accuracy_output before
    /\ exists accuracy percent shown suffix,
         (exists X Y kfold results std_ spread deviation,
            @cross_val_score
              (@model (Demo.demo_library Demo.files))
              (@XGBClassifier_fit (Demo.demo_library Demo.files))
              (@predict (Demo.demo_library Demo.files)) X Y kfold
            = Ok results
            /\ mean_float64 results = Ok accuracy
            /\ std_float64 results = Ok std_
            /\ Float64.times std_ 100 = Ok spread
            /\ fmt_value spread = Ok deviation
            /\ suffix = " (" ++ deviation ++ "%)")
         /\ Float64.times accuracy 100 = Ok percent
         /\ py_format "Accuracy: %.2f%%" [percent]
            = Ok ("Accuracy: " ++ shown ++ "%")
         /\ line = "Accuracy: " ++ shown ++ "%" ++ suffix.
Proof.
  destruct (accuracy_lines_follow_the_template
              (Demo.demo_library Demo.files) 0%Z) as [H _].
  apply (H (mk_cell_run true
              (@cell_pima_kfold (Demo.demo_library Demo.files)))).
  - do 5 right. left. reflexivity.
  - vm_compute. reflexivity.
Defined.

(** *** The cross validation summary *)

Section Scores.
Context {L : Library}.
Local Open Scope nat_scope.

Lemma KFold_shape (n k : nat) (random_state : option Z)
    (folds : list (list nat * list nat)) :
  KFold n k random_state = Ok folds ->
  List.length folds = k /\ Forall (fun f => snd f <> []) folds.
Proof.
  unfold KFold.
  destruct (Nat.leb_spec k 1); [discriminate|].
  destruct (Nat.ltb_spec n k); [discriminate|].
  intros [= <-]. split.
  - unfold fold_sizes.
    now rewrite length_map, length_test_folds, length_map, length_seq.
  - apply Forall_map. cbn [snd].
    apply test_folds_nonempty, fold_sizes_positive; lia.
Qed.






End Scores.

Section FloatMean.
Import Float64.

(** A number between 0 and 1 is stored as a double between 0 and 1. *)
Lemma nearest_unit (q : Q) : 0 <= q <= 1 -> 0 <= nearest q <= 1.
Proof.
  intros [H0 H1]. split; [now apply nearest_nonneg|].
  apply (nearest_le_integer q 1 H0 H1).
  assert (Hq : Qabs q < pow2 1).
  { rewrite Qabs_pos by exact H0. change (pow2 1) with 2. lra. }
  pose proof (exponent_le q 1 Hq). lia.
Qed.



(** A fraction times 100, in double precision, is a percentage. *)
Lemma percent_bounds (q : Q) :
  0 <= q <= 1 -> 0 <= mul (nearest q) 100 <= 100.
Proof.
  intros Hq. destruct (nearest_unit q Hq) as [H0 H1]. unfold mul. split.
  - apply nearest_nonneg. nra.
  - apply (nearest_le_integer _ 100); [nra | change (inject_Z 100) with 100; nra |].
    assert (Hp : Qabs (nearest q * 100) < pow2 7).
    { rewrite Qabs_pos by nra. change (pow2 7) with 128. nra. }
    pose proof (exponent_le _ 7 Hp). lia.
Qed.









End FloatMean.



(* ===================================================================== *)
(** ** Further properties of the cells' statements *)
(* ===================================================================== *)

Import Shapes.

(** *** Slicing the table into features and class *)

Section Slices.
Local Open Scope nat_scope.

Lemma entry_slice_cols (a : ndarray) (k i j : nat) :
  k <= ncols a ->
  entry (slice_cols a 0 k) i j = if j <? k then entry a i j else None.
Proof.
  intros Hk. unfold entry, slice_cols. cbn [rows].
  rewrite nth_error_map.
  destruct (nth_error (rows a) i) as [r|]; cbn [option_map].
  - rewrite Nat.min_l, Nat.sub_0_r by exact Hk.
    cbn [skipn]. apply nth_error_firstn.
  - now destruct (j <? k).
Qed.

End Slices.

(** [X = dataset[:,0:k]] and [Y = dataset[:,k]].  On a two-dimensional
    table, which is what pandas hands over and what [numpy.loadtxt] returns
    for a file of several rows and columns: the class column is read
    exactly when the table has more than [k] columns (an [IndexError]
    otherwise); then [X] has [k] columns and a row for every entry of [Y],
    its entries are those of the first [k] columns, and the class column is
    not among the features.  On an array of fewer dimensions, which
    [numpy.loadtxt] returns for a file of one row or of one column, both
    statements raise an [IndexError], however many numbers the file
    holds. *)
Theorem features_and_class_are_disjoint_slices (dataset : ndarray) (k : nat) :
  rectangular dataset ->
  ((ncols dataset <= k)%nat -> column dataset k = Raise "IndexError")
  /\ ((k < ncols dataset)%nat ->
      exists Y,
        column dataset k = Ok Y
        /\ ncols (slice_cols dataset 0 k) = k
        /\ nrows (slice_cols dataset 0 k) = List.length Y
        /\ rectangular (slice_cols dataset 0 k)
        /\ (forall i j, (j < k)%nat ->
              entry (slice_cols dataset 0 k) i j = entry dataset i j)
        /\ (forall i j, (k <= j)%nat ->
              entry (slice_cols dataset 0 k) i j = None)
        /\ (forall i, nth_error Y i = entry dataset i k))
  /\ (array_slice_cols (Array2 dataset) 0 k = Ok (slice_cols dataset 0 k)
      /\ array_column (Array2 dataset) k = column dataset k)
  /\ (forall v lo hi j,
        array_slice_cols (Array0 v) lo hi = Raise "IndexError"
        /\ array_column (Array0 v) j = Raise "IndexError")
  /\ (forall v lo hi j,
        array_slice_cols (Array1 v) lo hi = Raise "IndexError"
        /\ array_column (Array1 v) j = Raise "IndexError").
Proof.
  intros Hrect. unfold column.
  split; [|split; [|split; [now split | split; intros; now split]]].
  - intros Hk. destruct (Nat.ltb_spec k (ncols dataset)); [lia | reflexivity].
  - intros Hk. destruct (Nat.ltb_spec k (ncols dataset)); [|lia].
    eexists. split; [reflexivity|].
    assert (Hw : (Nat.min k (ncols dataset) - 0 = k)%nat) by lia.
    split; [exact Hw|]. split.
    { unfold nrows, slice_cols. cbn [rows]. now rewrite !length_map. }
    split.
    { unfold rectangular, slice_cols in *. cbn [rows ncols]. rewrite Hw.
      apply Forall_map. eapply Forall_impl; [|exact Hrect].
      intros r Hr. cbn [skipn]. rewrite length_firstn. cbv beta in Hr. lia. }
    split; [|split].
    + intros i j Hj. rewrite entry_slice_cols by lia.
      destruct (Nat.ltb_spec j k); [reflexivity | lia].
    + intros i j Hj. rewrite entry_slice_cols by lia.
      destruct (Nat.ltb_spec j k); [lia | reflexivity].
    + intros i. unfold entry. rewrite nth_error_map.
      destruct (nth_error (rows dataset) i) as [r|] eqn:Hr; cbn [option_map];
        [|reflexivity].
      symmetry. apply nth_error_nth'.
      unfold rectangular in Hrect. rewrite Forall_forall in Hrect.
      rewrite (Hrect r (nth_error_In _ _ Hr)). exact Hk.
Qed.

Lemma features_and_class_are_disjoint_slices_witness :
  exists Y,
    column Demo.iris_csv 4 = Ok Y
    /\ ncols (slice_cols Demo.iris_csv 0 4) = 4%nat
    /\ nrows (slice_cols Demo.iris_csv 0 4) = List.length Y
    /\ rectangular (slice_cols Demo.iris_csv 0 4)
    /\ (forall i j, (j < 4)%nat ->
          entry (slice_cols Demo.iris_csv 0 4) i j = entry Demo.iris_csv i j)
    /\ (forall i j, (4 <= j)%nat ->
          entry (slice_cols Demo.iris_csv 0 4) i j = None)
    /\ (forall i, nth_error Y i = entry Demo.iris_csv i 4).
Proof.
  assert (Hrect : rectangular Demo.iris_csv) by (repeat constructor).
  destruct (features_and_class_are_disjoint_slices Demo.iris_csv 4 Hrect)
    as (_ & H & _).
  apply H. cbn. lia.
Defined.

(** *** Overwriting the sentinel and converting to floats *)

Section Masks.
Local Open Scope nat_scope.

Lemma entry_set_where_eq (s v : value) (a : ndarray) (i j : nat) :
  entry (set_where_eq s v a) i j
  = option_map (fun x => if py_eqb x s then v else x) (entry a i j).
Proof.
  unfold entry, set_where_eq. cbn [rows]. rewrite nth_error_map.
  destruct (nth_error (rows a) i) as [r|]; cbn [option_map]; [|reflexivity].
  apply nth_error_map.
Qed.

Lemma entry_In (a : ndarray) (r : list value) (x : value) :
  In r (rows a) -> In x r -> exists i j, entry a i j = Some x.
Proof.
  intros Hr Hx.
  apply In_nth_error in Hr as (i & Hi). apply In_nth_error in Hx as (j & Hj).
  exists i, j. unfold entry. now rewrite Hi.
Qed.

Lemma traverse_total {A B : Type} (f : A -> result B) (l : list A) :
  (forall x, In x l -> exists y, f x = Ok y) ->
  exists l', traverse f l = Ok l'.
Proof.
  induction l as [|a l IH]; intros H.
  - now exists [].
  - destruct (H a (or_introl eq_refl)) as (b & Hb).
    destruct IH as (bs & Hbs); [intros x Hx; apply H; now right|].
    exists (b :: bs). cbn [traverse]. now rewrite Hb, Hbs.
Qed.

Lemma traverse_raises {A B : Type} (f : A -> result B) (l : list A)
    (i : nat) (x : A) (e : fault) :
  nth_error l i = Some x -> f x = Raise e ->
  exists e', traverse f l = Raise e'.
Proof.
  revert i; induction l as [|a l IH]; intros i Hx He.
  - destruct i; discriminate.
  - cbn [traverse]. destruct (f a) as [b|e1] eqn:Ha; [|now exists e1].
    destruct i as [|i]; cbn [nth_error] in Hx.
    + injection Hx as ->. congruence.
    + destruct (IH i Hx He) as (e' & ->). now exists e'.
Qed.

Lemma traverse_nth_back {A B : Type} (f : A -> result B) (l : list A)
    (l' : list B) (i : nat) (y : B) :
  traverse f l = Ok l' -> nth_error l' i = Some y ->
  exists x, nth_error l i = Some x /\ f x = Ok y.
Proof.
  revert l' i; induction l as [|a l IH]; intros l' i Ht Hy.
  - injection Ht as <-. destruct i; discriminate.
  - cbn [traverse] in Ht.
    destruct (f a) as [b|e] eqn:Ha; [|discriminate]. cbn [rbind] in Ht.
    destruct (traverse f l) as [bs|e] eqn:Hl; [|discriminate].
    cbn [rbind] in Ht. injection Ht as <-.
    destruct i as [|i]; cbn [nth_error] in *.
    + injection Hy as <-. now exists a.
    + now apply (IH bs).
Qed.

Lemma astype_entry (conv : value -> result value) (a out : ndarray)
    (i j : nat) (x : value) :
  astype conv a = Ok out -> entry a i j = Some x ->
  exists w, conv x = Ok w /\ entry out i j = Some w.
Proof.
  unfold astype, rmap, entry.
  destruct (traverse (traverse conv) (rows a)) as [rs|e] eqn:Hrs;
    [|discriminate].
  cbn [rbind]. intros [= <-]. cbn [rows].
  destruct (nth_error (rows a) i) as [r|] eqn:Hr; [|discriminate].
  intros Hx.
  destruct (traverse_nth _ _ _ _ _ Hrs Hr) as (r' & Hr' & ->).
  exact (traverse_nth _ _ _ _ _ Hr' Hx).
Qed.

Lemma astype_rectangular (conv : value -> result value) (a out : ndarray) :
  astype conv a = Ok out -> rectangular a -> rectangular out.
Proof.
  unfold astype, rmap, rectangular.
  destruct (traverse (traverse conv) (rows a)) as [rs|e] eqn:Hrs;
    [|discriminate].
  cbn [rbind]. intros [= <-] Hrect. cbn [rows ncols].
  rewrite Forall_forall in *. intros r' Hr'.
  apply In_nth_error in Hr' as (i & Hi).
  destruct (traverse_nth_back _ _ _ _ _ Hrs Hi) as (r & Hr & Hconv).
  rewrite (traverse_length _ _ _ Hconv).
  apply Hrect. eapply nth_error_In; eauto.
Qed.

End Masks.

(** [X[X == s] = v] with a value [v] that does not compare equal to [s]:
    the shape is kept, afterwards no entry compares equal to [s], a second
    assignment changes nothing, and a table without [s] is left as it
    is. *)
Theorem mask_assignment_clears_the_sentinel (s v : value) (a : ndarray) :
  py_eqb v s = false ->
  ncols (set_where_eq s v a) = ncols a
  /\ nrows (set_where_eq s v a) = nrows a
  /\ (rectangular a -> rectangular (set_where_eq s v a))
  /\ (forall i j x,
        entry (set_where_eq s v a) i j = Some x -> py_eqb x s = false)
  /\ set_where_eq s v (set_where_eq s v a) = set_where_eq s v a
  /\ ((forall i j x, entry a i j = Some x -> py_eqb x s = false) ->
      set_where_eq s v a = a).
Proof.
  intros Hv. split; [reflexivity|]. split.
  { unfold nrows, set_where_eq. cbn [rows]. apply length_map. }
  split.
  { unfold rectangular, set_where_eq. cbn [rows ncols]. intros Hrect.
    apply Forall_map. eapply Forall_impl; [|exact Hrect].
    intros r Hr. cbv beta in *. now rewrite length_map. }
  split.
  { intros i j x. rewrite entry_set_where_eq.
    destruct (entry a i j) as [y|]; cbn [option_map]; [|discriminate].
    destruct (py_eqb y s) eqn:Hy; intros [= <-]; assumption. }
  split.
  { unfold set_where_eq. cbn [rows ncols]. f_equal.
    rewrite map_map. apply map_ext. intros r. rewrite map_map.
    apply map_ext. intros x.
    destruct (py_eqb x s) eqn:Hx; [now rewrite Hv | now rewrite Hx]. }
  intros Hfree. destruct a as [n rs]. unfold set_where_eq. cbn [rows ncols].
  f_equal. rewrite <- (map_id rs) at 2. apply map_ext_in. intros r Hr.
  rewrite <- (map_id r) at 2. apply map_ext_in. intros x Hx.
  destruct (entry_In {| ncols := n; rows := rs |} r x Hr Hx) as (i & j & Hij).
  now rewrite (Hfree i j x Hij).
Qed.

Lemma mask_assignment_clears_the_sentinel_witness :
  ncols (set_where_eq (Str "?") (Num 0) Demo.horse_colic_csv) = 28%nat
  /\ nrows (set_where_eq (Str "?") (Num 0) Demo.horse_colic_csv) = 3%nat
  /\ (forall i j x,
        entry (set_where_eq (Str "?") (Num 0) Demo.horse_colic_csv) i j
        = Some x ->
        py_eqb x (Str "?") = false).
Proof.
  destruct (mask_assignment_clears_the_sentinel
              (Str "?") (Num 0) Demo.horse_colic_csv eq_refl)
    as (Hc & Hr & _ & Hfree & _).
  split; [exact Hc|]. split; [exact Hr | exact Hfree].
Defined.

(** [X.astype(...)]: when every entry converts, the result has the shape
    of [X] and holds each entry's conversion at the entry's place; when
    some entry does not convert, the conversion of the table raises. *)
Theorem astype_converts_every_entry_or_raises
    (conv : value -> result value) (a : ndarray) :
  ((forall i j x, entry a i j = Some x -> exists w, conv x = Ok w) ->
   exists out,
     astype conv a = Ok out
     /\ ncols out = ncols a /\ nrows out = nrows a
     /\ (rectangular a -> rectangular out)
     /\ forall i j x, entry a i j = Some x ->
          exists w, conv x = Ok w /\ entry out i j = Some w)
  /\ (forall i j x e,
        entry a i j = Some x -> conv x = Raise e ->
        exists e', astype conv a = Raise e').
Proof.
  split.
  - intros Hall.
    destruct (traverse_total (traverse conv) (rows a)) as (rs & Hrs).
    { intros r Hr. apply traverse_total. intros x Hx.
      destruct (entry_In a r x Hr Hx) as (i & j & Hij). eauto. }
    assert (Hout : astype conv a = Ok (mk_ndarray (ncols a) rs))
      by (unfold astype, rmap; now rewrite Hrs).
    exists (mk_ndarray (ncols a) rs). split; [exact Hout|].
    destruct (astype_shape _ _ _ Hout) as (Hc & Hr).
    split; [exact Hc|]. split; [exact Hr|]. split.
    + intros Hrect. eapply astype_rectangular; eauto.
    + intros i j x Hx. eapply astype_entry; eauto.
  - intros i j x e Hx He. unfold entry in Hx.
    destruct (nth_error (rows a) i) as [r|] eqn:Hr; [|discriminate].
    destruct (traverse_raises conv r j x e Hx He) as (e1 & He1).
    destruct (traverse_raises (traverse conv) (rows a) i r e1 Hr He1)
      as (e' & He').
    exists e'. unfold astype, rmap. now rewrite He'.
Qed.

(** *** Joining the encoded columns *)

Section Joining.
Local Open Scope nat_scope.

Lemma nth_error_combine {A B : Type} (l : list A) (l' : list B) (i : nat) :
  nth_error (combine l l') i
  = match nth_error l i, nth_error l' i with
    | Some x, Some y => Some (x, y)
    | _, _ => None
    end.
Proof.
  revert l' i; induction l as [|a l IH]; intros l' i.
  - now destruct i.
  - destruct l' as [|b l']; destruct i as [|i]; cbn [combine nth_error];
      try reflexivity.
    + now destruct (nth_error l i).
    + apply IH.
Qed.

Lemma concatenate1_ok (a b c : ndarray) :
  concatenate1 a b = Ok c ->
  nrows a = nrows b /\ nrows c = nrows a /\ ncols c = ncols a + ncols b
  /\ (rectangular a -> rectangular b -> rectangular c).
Proof.
  unfold concatenate1.
  destruct (Nat.eqb_spec (nrows a) (nrows b)) as [Hn|]; [|discriminate].
  intros [= <-]. split; [exact Hn|]. split.
  { unfold nrows in *. cbn [rows].
    rewrite length_map, length_combine. lia. }
  split; [reflexivity|].
  unfold rectangular. cbn [rows ncols]. rewrite !Forall_forall.
  intros Ha Hb r Hr. apply in_map_iff in Hr as ((ra & rb) & <- & Hin).
  cbn [fst snd]. rewrite length_app.
  rewrite (Ha ra (in_combine_l _ _ _ _ Hin)).
  now rewrite (Hb rb (in_combine_r _ _ _ _ Hin)).
Qed.

Lemma onehot_ok (feature : list nat) (m : ndarray) :
  onehot_fit_transform feature = Ok m ->
  nrows m = List.length feature /\ rectangular m.
Proof.
  unfold onehot_fit_transform. destruct feature as [|c feature];
    [discriminate|].
  intros H.
  match type of H with
  | Ok ?x = Ok m => assert (Hm : m = x) by congruence
  end.
  clear H. rewrite Hm. split.
  - unfold nrows. cbn [rows]. apply length_map.
  - unfold rectangular. cbn [rows ncols]. apply Forall_map.
    apply Forall_forall. intros v _. apply length_map.
Qed.

Lemma onehot_column_ok (X block : ndarray) (i : nat) :
  Unrolled.onehot_column X i = Ok block ->
  nrows block = nrows X /\ rectangular block.
Proof.
  unfold Unrolled.onehot_column. cbn [bind Monad_result].
  destruct (column X i) as [x_i|]; [|discriminate]. cbn [rbind].
  destruct (fit_transform py_eqb value_leb x_i) as [f|]; [|discriminate].
  cbn [rbind]. unfold reshape_n_1.
  destruct (Nat.eqb_spec (List.length f) (nrows X)) as [Hlen|];
    [|discriminate].
  cbn [rbind]. intros H. apply onehot_ok in H as (Hn & Hr).
  split; [congruence | exact Hr].
Qed.

(** The loop from a table already started. *)
Lemma encoding_loop_from (X e0 : ndarray) (cols : list nat)
    (r : option ndarray) :
  nrows e0 = nrows X -> rectangular e0 ->
  for_each cols (encode_column X) (Some e0) = Ok r ->
  exists e, r = Some e /\ nrows e = nrows X /\ rectangular e
            /\ ncols e = ncols e0 + list_sum (map (block_width X) cols).
Proof.
  revert e0; induction cols as [|i cols IH]; intros e0 Hn Hr Hloop.
  - injection Hloop as <-. exists e0. cbn. repeat split; auto.
  - cbn [for_each bind Monad_result] in Hloop.
    rewrite encode_column_step in Hloop.
    destruct (Unrolled.onehot_column X i) as [block|] eqn:Hb;
      [|discriminate].
    cbn [rbind] in Hloop. unfold rmap in Hloop.
    destruct (concatenate1 e0 block) as [e1|] eqn:Hc; [|discriminate].
    cbn [rbind] in Hloop.
    destruct (onehot_column_ok _ _ _ Hb) as (Hbn & Hbr).
    destruct (concatenate1_ok _ _ _ Hc) as (_ & Hn1 & Hc1 & Hr1).
    destruct (IH e1) as (e & -> & Hen & Her & Hec);
      [congruence | auto | exact Hloop |].
    exists e. repeat split; auto.
    rewrite Hec, Hc1. cbn [map]. unfold block_width at 2.
    rewrite Hb. unfold list_sum. cbn [fold_right]. lia.
Qed.

(** The loop from [encoded_x = None]. *)
Lemma encoding_loop_shape (X : ndarray) (cols : list nat)
    (r : option ndarray) :
  for_each cols (encode_column X) None = Ok r ->
  match r with
  | None => cols = []
  | Some e =>
      cols <> []
      /\ nrows e = nrows X
      /\ rectangular e
      /\ ncols e = list_sum (map (block_width X) cols)
  end.
Proof.
  destruct cols as [|i cols]; intros Hloop.
  - injection Hloop as <-. reflexivity.
  - cbn [for_each bind Monad_result] in Hloop.
    rewrite encode_column_step in Hloop.
    destruct (Unrolled.onehot_column X i) as [block|] eqn:Hb;
      [|discriminate].
    cbn [rbind] in Hloop.
    destruct (onehot_column_ok _ _ _ Hb) as (Hbn & Hbr).
    destruct (encoding_loop_from X block cols r Hbn Hbr Hloop)
      as (e & -> & Hn & Hr & Hc).
    split; [discriminate|]. split; [exact Hn|]. split; [exact Hr|].
    rewrite Hc. cbn [map]. unfold block_width at 2.
    rewrite Hb. unfold list_sum. cbn [fold_right]. reflexivity.
Qed.

End Joining.

(** [numpy.concatenate((a, b), axis=1)]: tables with different numbers of
    rows are refused with a [ValueError]; otherwise the result has the rows
    of [a], the columns of both, and each row of [a] followed by the same
    row of [b]. *)
Theorem concatenate_puts_columns_side_by_side (a b : ndarray) :
  (nrows a <> nrows b -> concatenate1 a b = Raise "ValueError")
  /\ (nrows a = nrows b ->
      exists c,
        concatenate1 a b = Ok c
        /\ nrows c = nrows a
        /\ ncols c = (ncols a + ncols b)%nat
        /\ (rectangular a -> rectangular b -> rectangular c)
        /\ (rectangular a -> forall i j,
              entry c i j = if (j <? ncols a)%nat
                            then entry a i j
                            else entry b i (j - ncols a))).
Proof.
  split.
  - intros Hne. unfold concatenate1.
    destruct (Nat.eqb_spec (nrows a) (nrows b)); [contradiction | reflexivity].
  - intros Hn.
    assert (Hc : concatenate1 a b
                 = Ok {| ncols := (ncols a + ncols b)%nat;
                         rows := map (fun p => (fst p ++ snd p)%list)
                                     (combine (rows a) (rows b)) |}).
    { unfold concatenate1. now rewrite Hn, Nat.eqb_refl. }
    eexists. split; [exact Hc|].
    destruct (concatenate1_ok _ _ _ Hc) as (_ & Hn' & Hc' & Hr').
    split; [exact Hn'|]. split; [exact Hc'|]. split; [exact Hr'|].
    intros Hrect i j. unfold entry. cbn [rows].
    rewrite nth_error_map, nth_error_combine.
    destruct (nth_error (rows a) i) as [ra|] eqn:Ha.
    + destruct (nth_error (rows b) i) as [rb|] eqn:Hb.
      * cbn [option_map fst snd]. rewrite nth_error_app.
        unfold rectangular in Hrect. rewrite Forall_forall in Hrect.
        now rewrite (Hrect ra (nth_error_In _ _ Ha)).
      * exfalso. apply nth_error_None in Hb.
        assert (i < nrows a)%nat
          by (apply nth_error_Some; unfold nrows; congruence).
        unfold nrows in *. lia.
    + cbn [option_map].
      assert (Hb : nth_error (rows b) i = None).
      { apply nth_error_None. apply nth_error_None in Ha.
        unfold nrows in *. lia. }
      rewrite Hb. now destruct (j <? ncols a)%nat.
Qed.

(** The loop over the columns of [X]: without a column it leaves
    [encoded_x] at [None]; otherwise, when it finishes, [encoded_x] is a
    rectangular table with one row for each row of [X], as wide as the
    blocks of the encoded columns together. *)
Theorem encoding_loop_keeps_one_row_per_sample (X : ndarray)
    (cols : list nat) (r : option ndarray) :
  for_each cols (encode_column X) None = Ok r ->
  match r with
  | None => cols = []
  | Some e =>
      cols <> []
      /\ nrows e = nrows X
      /\ rectangular e
      /\ ncols e = list_sum (map (block_width X) cols)
  end.
Proof. apply encoding_loop_shape. Qed.

Lemma encoding_loop_keeps_one_row_per_sample_witness :
  exists e,
    for_each (seq 0 9) (encode_column (slice_cols Demo.breast_cancer_csv 0 9))
             None = Ok (Some e)
    /\ nrows e = 3%nat
    /\ rectangular e
    /\ ncols e
       = list_sum (map (block_width (slice_cols Demo.breast_cancer_csv 0 9))
                       (seq 0 9)).
Proof.
  destruct (for_each (seq 0 9)
              (encode_column (slice_cols Demo.breast_cancer_csv 0 9)) None)
    as [[e|]|] eqn:Hloop; try (vm_compute in Hloop; discriminate Hloop).
  pose proof (encoding_loop_keeps_one_row_per_sample _ _ _ Hloop)
    as (_ & Hn & Hr & Hc).
  exists e. repeat split; assumption.
Defined.

(** When the one hot encoding cell finishes, its three print statements
    have written, in this order: the shape of the encoded table, which has
    the rows of the file and the widths of the nine encoded columns
    together; the model fitted on the training rows of the encoded table;
    and the accuracy line, for the accuracy of the model's rounded
    predictions on the test rows. *)
Theorem one_hot_cell_reports_the_encoded_shape (L : Library) (global : rng)
    (out : list string) :
  cell_breast_cancer global = (out, Ok tt) ->
  exists dataset Y encoded_x label_encoded_y X_train X_test y_train y_test
         m y_pred predictions accuracy percent shown,
    read_csv "datasets-uci-breast-cancer.csv" false = Ok dataset
    /\ column dataset 9 = Ok Y
    /\ for_each (seq 0 9) (encode_column (slice_cols dataset 0 9)) None
       = Ok (Some encoded_x)
    /\ nrows encoded_x = nrows dataset
    /\ ncols encoded_x
       = list_sum (map (block_width (slice_cols dataset 0 9)) (seq 0 9))
    /\ transform py_eqb (fit py_eqb value_leb Y) Y = Ok label_encoded_y
    /\ train_test_split RandomState permutation global encoded_x
         (map code label_encoded_y) (33 # 100) (Some 7%Z)
       = Ok (X_train, X_test, y_train, y_test)
    /\ XGBClassifier_fit X_train y_train = Ok m
    /\ predict m X_test = Ok y_pred
    /\ traverse round y_pred = Ok predictions
    /\ accuracy_score y_test predictions = Ok accuracy
    /\ Float64.times accuracy 100 = Ok percent
    /\ fmt_value percent = Ok shown
    /\ out = [ "('X shape: : ', (" ++ str_nat (nrows dataset) ++ ", "
               ++ str_nat (list_sum (map (block_width (slice_cols dataset 0 9))
                                         (seq 0 9)))
               ++ "))";
               "XGBClassifier(" ++ params m ++ ")";
               "Accuracy: " ++ shown ++ "%" ].
Proof.
  intros H. unfold cell_breast_cancer in H. finished_run H.
  match goal with
  | Hd : read_csv _ _ = Ok ?d, HY : column ?d 9 = Ok _,
    Hloop : for_each _ _ None = Ok (Some ?e),
    Hline : bind (Float64.times _ 100) _ = Ok _ |- _ =>
      rewrite (nine_feature_columns _ _ HY) in Hloop;
      pose proof (encoding_loop_shape _ _ _ Hloop) as Hshape;
      cbv iota in Hshape;
      destruct Hshape as (_ & Hheight & _ & Hwidth);
      assert (Hrows : nrows (slice_cols d 0 9) = nrows d)
        by (unfold nrows, slice_cols; cbn [rows]; apply length_map);
      cbn [bind Monad_result] in Hline;
      apply rbind_success in Hline as (percent & Hp & Hline);
      rewrite py_format_accuracy in Hline;
      destruct (fmt_value percent) as [shown|] eqn:Hshown;
        [|discriminate Hline];
      cbn [rmap rbind] in Hline; injection Hline as <-;
      exists d
  end.
  do 13 eexists.
  repeat (split; [eassumption || (rewrite <- Hrows; eassumption)
                  || (etransitivity; [eassumption | reflexivity])|]).
  cbn [app]. rewrite Hheight, Hrows, Hwidth. reflexivity.
Qed.

Lemma one_hot_cell_reports_the_encoded_shape_witness :
  exists dataset Y encoded_x label_encoded_y X_train X_test y_train y_test
         m y_pred predictions accuracy percent shown,
    @read_csv (Demo.demo_library Demo.files)
              "datasets-uci-breast-cancer.csv" false = Ok dataset
    /\ column dataset 9 = Ok Y
    /\ for_each (seq 0 9) (encode_column (slice_cols dataset 0 9)) None
       = Ok (Some encoded_x)
    /\ nrows encoded_x = nrows dataset
    /\ ncols encoded_x
       = list_sum (map (block_width (slice_cols dataset 0 9)) (seq 0 9))
    /\ transform py_eqb (fit py_eqb value_leb Y) Y = Ok label_encoded_y
    /\ train_test_split (@RandomState (Demo.demo_library Demo.files))
         (@permutation (Demo.demo_library Demo.files)) 0%Z encoded_x
         (map code label_encoded_y) (33 # 100) (Some 7%Z)
       = Ok (X_train, X_test, y_train, y_test)
    /\ @XGBClassifier_fit (Demo.demo_library Demo.files) X_train y_train
       = Ok m
    /\ @predict (Demo.demo_library Demo.files) m X_test = Ok y_pred
    /\ traverse round y_pred = Ok predictions
    /\ accuracy_score y_test predictions = Ok accuracy
    /\ Float64.times accuracy 100 = Ok percent
    /\ fmt_value percent = Ok shown
    /\ [ "('X shape: : ', (3, 18))"; "XGBClassifier(base_score=0.5)";
         "Accuracy: 0.00%" ]
       = [ "('X shape: : ', (" ++ str_nat (nrows dataset) ++ ", "
           ++ str_nat (list_sum (map (block_width (slice_cols dataset 0 9))
                                     (seq 0 9)))
           ++ "))";
           "XGBClassifier(" ++ @params (Demo.demo_library Demo.files) m ++ ")";
           "Accuracy: " ++ shown ++ "%" ].
Proof.
  apply (one_hot_cell_reports_the_encoded_shape
           (Demo.demo_library Demo.files) 0%Z).
  vm_compute. reflexivity.
Defined.

(** *** Rounding the predictions *)

Section Rounding.

Lemma round_half_away_integer (z : Z) : round_half_away (inject_Z z) = z.
Proof.
  unfold round_half_away, inject_Z. cbn [Qnum Qden].
  assert (H : ((2 * Z.abs z + 1) / (2 * 1) = Z.abs z)%Z).
  { symmetry. apply (Z.div_unique_pos _ _ _ 1); lia. }
  rewrite H. lia.
Qed.

Lemma round_half_away_nearest (q : Q) :
  Qabs (q - inject_Z (round_half_away q)) <= 1 # 2.
Proof.
  apply Qabs_Qle_condition.
  destruct q as [n d]. unfold round_half_away. cbn [Qnum Qden].
  set (m := ((2 * Z.abs n + Zpos d) / (2 * Zpos d))%Z).
  assert (Hm : (2 * Zpos d * m <= 2 * Z.abs n + Zpos d
                < 2 * Zpos d * m + 2 * Zpos d)%Z).
  { unfold m. pose proof (Z.div_mod (2 * Z.abs n + Zpos d) (2 * Zpos d)).
    pose proof (Z.mod_pos_bound (2 * Z.abs n + Zpos d) (2 * Zpos d)). lia. }
  clearbody m.
  unfold Qle, Qminus, Qplus, Qopp, inject_Z. cbn [Qnum Qden].
  destruct n as [|p|p]; cbn [Z.sgn Z.abs] in *; split; nia.
Qed.

Lemma traverse_round_fault (ys : list value) (e : fault) :
  traverse round ys = Raise e -> e = "TypeError".
Proof.
  induction ys as [|y ys IH]; [discriminate|].
  cbn [traverse]. destruct y as [s|q|]; cbn [round rbind].
  - now intros [= <-].
  - destruct (traverse round ys); [discriminate|].
    cbn [rbind]. intros [= <-]. now apply IH.
  - destruct (traverse round ys); [discriminate|].
    cbn [rbind]. intros [= <-]. now apply IH.
Qed.

End Rounding.

(** [predictions = [round(value) for value in y_pred]]: predictions that
    are whole numbers, as class labels are, come out unchanged; any number
    moves to a whole number at most one half away; the list keeps its
    length; and a string among the predictions raises a [TypeError]. *)
Theorem rounding_keeps_class_labels :
  (forall labels,
     traverse round (map (fun z => Num (inject_Z z)) labels)
     = Ok (map (fun z => Num (inject_Z z)) labels))
  /\ (forall q, exists z,
        round (Num q) = Ok (Num (inject_Z z))
        /\ Qabs (q - inject_Z z) <= 1 # 2)
  /\ (forall y_pred predictions,
        traverse round y_pred = Ok predictions ->
        List.length predictions = List.length y_pred)
  /\ (forall y_pred i s,
        nth_error y_pred i = Some (Str s) ->
        traverse round y_pred = Raise "TypeError").
Proof.
  split; [|split; [|split]].
  - induction labels as [|z labels IH]; [reflexivity|].
    cbn [map traverse round rbind].
    rewrite round_half_away_integer, IH. reflexivity.
  - intros q. exists (round_half_away q). split; [reflexivity|].
    apply round_half_away_nearest.
  - intros y_pred predictions. apply traverse_length.
  - intros y_pred i s Hi.
    destruct (traverse_raises round y_pred i (Str s) "TypeError" Hi eq_refl)
      as (e & He).
    rewrite He. f_equal. now apply (traverse_round_fault y_pred).
Qed.

(** *** The accuracy and its line *)

Section Percent.

Lemma vscale_number (a : value) (k : Q) (v : value) :
  vscale a k = Ok v -> v = NaN \/ exists q, v = Num q.
Proof.
  destruct a as [s|p|]; cbn [vscale]; [discriminate| |];
    intros [= <-]; eauto.
Qed.

Lemma sum_from_no_string (l : list value) (acc s : value) :
  sum_from acc l = Ok s ->
  forall x, In x l -> forall t, x <> Str t.
Proof.
  revert acc; induction l as [|y l IH]; intros acc Hs x Hx t; [contradiction|].
  cbn [sum_from] in Hs.
  destruct (vadd acc y) as [acc'|] eqn:Hadd; [|discriminate].
  cbn [rbind] in Hs. destruct Hx as [-> | Hx].
  - intros ->. destruct acc; discriminate.
  - now apply (IH acc' Hs).
Qed.

Lemma sum_from_total (l : list value) (acc : value) :
  (forall t, acc <> Str t) ->
  (forall x, In x l -> forall t, x <> Str t) ->
  exists s, sum_from acc l = Ok s /\ forall t, s <> Str t.
Proof.
  revert acc; induction l as [|y l IH]; intros acc Hacc Hl.
  - now exists acc.
  - cbn [sum_from].
    assert (Hy : forall t, y <> Str t) by (apply Hl; now left).
    assert (Hadd : exists acc', vadd acc y = Ok acc'
                                /\ forall t, acc' <> Str t).
    { destruct acc as [t| |]; [now destruct (Hacc t)| |];
        destruct y as [t| |]; try (now destruct (Hy t));
        cbn [vadd]; eexists; (split; [reflexivity | discriminate]). }
    destruct Hadd as (acc' & -> & Hacc'). cbn [rbind].
    apply IH; [exact Hacc'|]. intros x Hx. apply Hl. now right.
Qed.

Lemma mean_result (l : list value) (m : value) :
  mean l = Ok m ->
  (m = NaN \/ exists q, m = Num q)
  /\ forall x, In x l -> forall t, x <> Str t.
Proof.
  destruct l as [|x l].
  - intros [= <-]. split; [now left | contradiction].
  - unfold mean, sum.
    destruct (sum_from (Num 0) (x :: l)) as [s|] eqn:Hs; [|discriminate].
    cbn [rbind]. intros Hm. split.
    + eapply vscale_number; eauto.
    + eapply sum_from_no_string; eauto.
Qed.

Lemma mean_total (l : list value) :
  (forall x, In x l -> forall t, x <> Str t) ->
  exists m, mean l = Ok m.
Proof.
  intros Hl. destruct l as [|x l]; [now exists NaN|].
  unfold mean, sum.
  destruct (sum_from_total (x :: l) (Num 0)) as (s & -> & Hs);
    [discriminate | exact Hl |].
  cbn [rbind]. destruct s as [t| |]; [now destruct (Hs t)| |];
    cbn [vscale]; eauto.
Qed.

Lemma fmt_value_total (v : value) :
  (v = NaN \/ exists q, v = Num q) -> exists x, fmt_value v = Ok x.
Proof. intros [-> | (q & ->)]; cbn [fmt_value]; eauto. Qed.

Lemma percent_total (v : value) :
  (v = NaN \/ exists q, v = Num q) ->
  exists a, Float64.times v 100 = Ok a /\ (a = NaN \/ exists q, a = Num q).
Proof. intros [-> | (q & ->)]; cbn [Float64.times]; eauto 6. Qed.

(** The mean and the standard deviation of a float array are floats. *)
Lemma mean_float64_result (l : list value) (m : value) :
  mean_float64 l = Ok m ->
  (m = NaN \/ exists q, m = Num q)
  /\ exists s, std_float64 l = Ok s /\ (s = NaN \/ exists q, s = Num q).
Proof.
  unfold mean_float64, std_float64.
  destruct (float64_data l) as [d|]; [|discriminate]. cbn [rbind].
  destruct d as [[|x a]|].
  - intros [= <-]. eauto 6.
  - intros [= <-]. split; [eauto|].
    destruct (Float64.sqrt (var64 (x :: a))); eauto 6.
  - intros [= <-]. eauto 6.
Qed.

End Percent.

(** Once the accuracy is computed the print statement cannot fail: the
    accuracy is a float, so its line is formed; and a list of scores that
    has a mean has a summary line. *)
Theorem accuracy_print_cannot_fail :
  (forall y_test predictions accuracy,
     accuracy_score y_test predictions = Ok accuracy ->
     exists line,
       (a <- Float64.times accuracy 100 ;; py_format "Accuracy: %.2f%%" [a])
       = Ok line)
  /\ (forall (L : Library) results mean_,
        mean_float64 results = Ok mean_ ->
        exists line, summary_line results = Ok line).
Proof.
  split.
  - intros y_test predictions accuracy Hacc.
    assert (Hnum : accuracy = NaN \/ exists q, accuracy = Num q).
    { unfold accuracy_score in Hacc.
      destruct (_ =? _)%nat; [|discriminate].
      now apply mean_result in Hacc. }
    destruct (percent_total _ Hnum) as (a & Ha & Hanum).
    destruct (fmt_value_total _ Hanum) as (x & Hx).
    cbn [bind Monad_result]. rewrite Ha. cbn [rbind].
    rewrite py_format_accuracy, Hx. cbn [rmap rbind]. eauto.
  - intros L results mean_ Hmean.
    destruct (mean_float64_result _ _ Hmean) as (Hnum & s & Hs & Hsnum).
    destruct (percent_total _ Hnum) as (a & Ha & Hanum).
    destruct (percent_total _ Hsnum) as (b & Hb & Hbnum).
    destruct (fmt_value_total _ Hanum) as (x & Hx).
    destruct (fmt_value_total _ Hbnum) as (y & Hy).
    unfold summary_line. cbn [bind Monad_result].
    rewrite Hmean. cbn [rbind]. rewrite Ha. cbn [rbind].
    rewrite Hs. cbn [rbind]. rewrite Hb. cbn [rbind].
    rewrite py_format_summary, Hx. cbn [rbind]. rewrite Hy.
    cbn [rmap rbind]. eauto.
Qed.

(** [accuracy_score(y_test, predictions)] refuses vectors of different
    lengths with a [ValueError]; on vectors of the same positive length it
    is a number between 0 and 1, so that the percentage the cells print,
    [accuracy * 100.0] in double precision, lies between 0 and 100. *)
Theorem accuracy_is_a_percentage (y_test predictions : list value) :
  (List.length y_test <> List.length predictions ->
   accuracy_score y_test predictions = Raise "ValueError")
  /\ (List.length y_test = List.length predictions ->
      y_test <> [] ->
      exists accuracy percent,
        accuracy_score y_test predictions = Ok (Num accuracy)
        /\ 0 <= accuracy <= 1
        /\ Float64.times (Num accuracy) 100 = Ok (Num percent)
        /\ 0 <= percent <= 100).
Proof.
  unfold accuracy_score. split.
  - intros Hne.
    destruct (Nat.eqb_spec (List.length y_test) (List.length predictions));
      [contradiction | reflexivity].
  - intros Hlen Hne. rewrite Hlen, Nat.eqb_refl.
    assert (Hmap : map (fun pr : value * value =>
                          if py_eqb (fst pr) (snd pr) then Num 1 else Num 0)
                       (combine y_test predictions)
                   = map Num (map indicator (combine y_test predictions))).
    { rewrite map_map. apply map_ext. intros pr. unfold indicator.
      destruct (py_eqb (fst pr) (snd pr)); reflexivity. }
    rewrite Hmap.
    assert (Hpos : (0 < List.length predictions)%nat).
    { destruct y_test, predictions; simpl in *; try congruence; lia. }
    assert (Hne' : map indicator (combine y_test predictions) <> []).
    { destruct y_test, predictions; simpl in *; try discriminate; lia. }
    destruct (mean_Num _ Hne') as (m & Hm & Hval).
    assert (Hbounds : 0 <= m <= 1).
    { rewrite Hval, indicator_sum, length_map, length_combine, Hlen,
        Nat.min_id.
      apply fraction_bounds; [|exact Hpos].
      etransitivity; [apply filter_length_le|].
      rewrite length_combine, Hlen, Nat.min_id. reflexivity. }
    exists m, (Float64.mul (Float64.nearest m) 100).
    split; [exact Hm|]. split; [exact Hbounds|].
    split; [reflexivity|]. now apply percent_bounds.
Qed.

Lemma accuracy_is_a_percentage_witness :
  exists accuracy percent,
    accuracy_score [Num 1; Num 0; Num 1; Num 1] [Num 1; Num 1; Num 1; Num 0]
    = Ok (Num accuracy)
    /\ 0 <= accuracy <= 1
    /\ Float64.times (Num accuracy) 100 = Ok (Num percent)
    /\ 0 <= percent <= 100.
Proof.
  destruct (accuracy_is_a_percentage
              [Num 1; Num 0; Num 1; Num 1] [Num 1; Num 1; Num 1; Num 0])
    as [_ H].
  apply H; [reflexivity | discriminate].
Defined.

(** *** Reading the printed numbers back *)

Section Decimal.

Lemma append_assoc (s1 s2 s3 : string) :
  (s1 ++ s2) ++ s3 = s1 ++ (s2 ++ s3).
Proof.
  induction s1 as [|c s1 IH]; [reflexivity|].
  cbn [append]. now rewrite IH.
Qed.

Lemma read_digits_app (s1 s2 : string) (k : N) :
  read_digits (s1 ++ s2) k = read_digits s2 (read_digits s1 k).
Proof.
  revert k; induction s1 as [|c s1 IH]; intros k; [reflexivity|].
  cbn [append read_digits]. apply IH.
Qed.

Lemma digit_value_digit (k : N) : (k < 10)%N -> digit_value (digit k) = k.
Proof.
  intros Hk. unfold digit_value, digit.
  rewrite N_ascii_embedding by lia. lia.
Qed.

(** With enough fuel the digits written in front of [acc] read back as
    [n], after whatever was read before. *)
Lemma digits_fuel_read (fuel : nat) (n : N) (acc : string) :
  (n < 2 ^ N.of_nat fuel)%N ->
  exists s p,
    digits_fuel fuel n acc = s ++ acc
    /\ forall k, read_digits s k = (k * p + n)%N.
Proof.
  revert n acc; induction fuel as [|fuel IH]; intros n acc Hn.
  - exists "", 1%N. split; [reflexivity|]. intros k. cbn in *. lia.
  - cbn [digits_fuel].
    assert (Hdm : n = (10 * (n / 10) + n mod 10)%N)
      by (apply N.div_mod; discriminate).
    assert (Hmod : (n mod 10 < 10)%N)
      by (apply N.mod_upper_bound; discriminate).
    rewrite Nat2N.inj_succ, N.pow_succ_r' in Hn.
    assert (Hless : (n / 10 < 2 ^ N.of_nat fuel)%N).
    { revert Hn. generalize (2 ^ N.of_nat fuel)%N. intros P Hn.
      revert Hdm Hmod. generalize (n / 10)%N (n mod 10)%N. intros a b. lia. }
    destruct (N.eqb_spec (n / 10) 0) as [Hq|Hq].
    + exists (String (digit (n mod 10)) ""), 10%N. split; [reflexivity|].
      intros k. cbn [read_digits]. rewrite digit_value_digit; lia.
    + destruct (IH (n / 10)%N (String (digit (n mod 10)) acc))
        as (s & p & Hs & Hread); [exact Hless|].
      exists (s ++ String (digit (n mod 10)) ""), (p * 10)%N. split.
      * rewrite Hs, append_assoc. reflexivity.
      * intros k. rewrite read_digits_app, Hread. cbn [read_digits].
        rewrite digit_value_digit; lia.
Qed.

Lemma read_str_N (n : N) : read_digits (str_N n) 0 = n.
Proof.
  unfold str_N.
  destruct (digits_fuel_read (S (N.to_nat (N.log2 n))) n "")
    as (s & p & Hs & Hread).
  { rewrite Nat2N.inj_succ, N2Nat.id.
    destruct n as [|q]; [reflexivity|]. apply N.log2_spec. lia. }
  rewrite Hs.
  assert (Hnil : s ++ "" = s).
  { clear. induction s as [|c s IH]; [reflexivity|].
    cbn [append]. now rewrite IH. }
  rewrite Hnil, Hread. lia.
Qed.

Lemma hundredths_digits (h : N) :
  (h / 100 * 100 + (h / 10) mod 10 * 10 + h mod 10 = h)%N.
Proof.
  pose proof (N.div_mod h 10) as H1.
  pose proof (N.div_mod (h / 10) 10) as H2.
  rewrite N.Div0.div_div in H2. change (10 * 10)%N with 100%N in H2.
  lia.
Qed.

End Decimal.

(** The numbers the cells print read back: the digits of [str(n)] give
    [n], and the text of ["%.2f" % q], a minus sign for a negative [q],
    then digits, a point and two digits, read as hundredths, is within half
    a hundredth of [q]. *)
Theorem printed_numbers_read_back :
  (forall n, read_digits (str_N n) 0 = n)
  /\ (forall q, exists whole d1 d2,
        fmt_2f q = (if (Qnum q <? 0)%Z then "-" else "") ++ whole ++ "."
                   ++ String d1 (String d2 "")
        /\ Qabs (Qabs q * 100
                 - inject_Z (Z.of_N (read_digits whole 0 * 100
                                     + digit_value d1 * 10
                                     + digit_value d2)))
           <= 1 # 2).
Proof.
  split; [exact read_str_N|].
  intros q.
  exists (str_N (hundredths q / 100)), (digit ((hundredths q / 10) mod 10)),
    (digit (hundredths q mod 10)).
  split; [reflexivity|].
  rewrite read_str_N, !digit_value_digit
    by (apply N.mod_upper_bound; lia).
  rewrite hundredths_digits. apply hundredths_nearest.
Qed.

(** *** Splitting the rows into training and test sets *)

Section Splits.
Local Open Scope nat_scope.


Lemma map_nth_all {A : Type} (xs : list A) (d : A) :
  map (fun i => nth i xs d) (seq 0 (List.length xs)) = xs.
Proof.
  induction xs as [|x xs IH]; [reflexivity|].
  cbn [List.length seq map nth]. f_equal.
  rewrite <- seq_shift, map_map. exact IH.
Qed.


Lemma ceil_fraction_le (test_size : Q) (n : nat) :
  (test_size <= 1)%Q -> ceil_fraction test_size n <= n.
Proof.
  intros Hts. unfold ceil_fraction.
  assert (H : (Qceiling (test_size * inject_Z (Z.of_nat n))
               <= Z.of_nat n)%Z).
  { rewrite <- (Qceiling_Z (Z.of_nat n)) at 2. apply Qceiling_resp_le.
    rewrite <- (Qmult_1_l (inject_Z (Z.of_nat n))) at 2.
    apply Qmult_le_compat_r; [exact Hts|].
    change 0%Q with (inject_Z 0). rewrite <- Zle_Qle. lia. }
  lia.
Qed.


End Splits.



(** *** Cross validation on a small table *)

(** The k-fold cell needs a two-dimensional table of at least nine
    columns and ten rows.  On the one-dimensional array that
    [numpy.loadtxt] returns for a file of one row, and on a table without
    a ninth column, the slicing ends the cell with an [IndexError].
    [KFold] refuses fewer than two folds and more folds than rows, so on a
    table of fewer than ten rows the cell ends with a [ValueError].
    Nothing is printed in either case.  On a longer table the ten
    rotations are formed. *)
Theorem kfold_cell_needs_ten_rows (L : Library) (dataset : array) :
  loadtxt "pima-indians-diabetes.csv" = Ok dataset ->
  (forall n k random_state,
     (k <= 1)%nat \/ (n < k)%nat ->
     KFold n k random_state = Raise "ValueError")
  /\ match dataset with
     | Array2 table =>
         ((ncols table <= 8)%nat ->
          cell_pima_kfold = ([], Raise "IndexError"))
         /\ ((8 < ncols table)%nat -> (nrows table < 10)%nat ->
             cell_pima_kfold = ([], Raise "ValueError"))
         /\ ((8 < ncols table)%nat -> (10 <= nrows table)%nat ->
             exists Y kfold,
               column table 8 = Ok Y
               /\ KFold (nrows (slice_cols table 0 8)) 10 (Some 7%Z)
                  = Ok kfold
               /\ List.length kfold = 10%nat)
     | _ => cell_pima_kfold = ([], Raise "IndexError")
     end.
Proof.
  intros Hload. split.
  { intros n k random_state Hk. unfold KFold.
    destruct (Nat.leb_spec k 1); [reflexivity|].
    destruct (Nat.ltb_spec n k); [reflexivity | lia]. }
  destruct dataset as [v|v|table].
  - unfold cell_pima_kfold. rewrite Hload. reflexivity.
  - unfold cell_pima_kfold. rewrite Hload. reflexivity.
  - assert (Hrows : nrows (slice_cols table 0 8) = nrows table)
      by (unfold nrows, slice_cols; cbn [rows]; apply length_map).
    split; [|split].
    + intros Hcols. unfold cell_pima_kfold. rewrite Hload.
      cbn [bind Monad_cell cell_bind call array_slice_cols array_column app].
      unfold column. destruct (Nat.ltb_spec 8 (ncols table)); [lia|].
      reflexivity.
    + intros Hcols Hshort. unfold cell_pima_kfold. rewrite Hload.
      cbn [bind Monad_cell cell_bind call array_slice_cols array_column app].
      unfold column. destruct (Nat.ltb_spec 8 (ncols table)); [|lia].
      rewrite Hrows. unfold KFold. cbn [Nat.leb].
      destruct (Nat.ltb_spec (nrows table) 10); [reflexivity | lia].
    + intros Hcols Hlong. rewrite Hrows.
      unfold column. destruct (Nat.ltb_spec 8 (ncols table)); [|lia].
      destruct (KFold (nrows table) 10 (Some 7%Z)) as [kfold|e] eqn:Hk.
      * eexists. exists kfold. split; [reflexivity|].
        split; [reflexivity|]. now apply KFold_shape in Hk.
      * unfold KFold in Hk. cbn [Nat.leb] in Hk.
        destruct (Nat.ltb_spec (nrows table) 10); [lia | discriminate].
Qed.

Lemma kfold_cell_needs_ten_rows_witness :
  @cell_pima_kfold (Demo.demo_library short_pima_files)
  = ([], Raise "ValueError")
  /\ @cell_pima_kfold (Demo.demo_library one_row_pima_files)
     = ([], Raise "IndexError").
Proof.
  split.
  - destruct (kfold_cell_needs_ten_rows
                (Demo.demo_library short_pima_files)
                (Array2 {| ncols := 9;
                           rows := [ repeat (Num 0) 9; repeat (Num 1) 9;
                                     repeat (Num 0) 9 ] |})
                eq_refl) as (_ & _ & H & _).
    apply H; cbn; lia.
  - destruct (kfold_cell_needs_ten_rows
                (Demo.demo_library one_row_pima_files)
                (Array1 (repeat (Num 1) 9)) eq_refl) as (_ & H).
    exact H.
Defined.

(** *** Decoding the labels *)

Section Decoding.
Local Open Scope nat_scope.

Lemma index_of_absent {A : Type} (eqb : A -> A -> bool)
    (eqb_eq : forall x y, eqb x y = true <-> x = y) (l : list A) (x : A) :
  ~ In x l -> index_of eqb x l = None.
Proof.
  induction l as [|a l IH]; intros Hx; [reflexivity|].
  cbn [index_of]. destruct (eqb x a) eqn:E.
  - apply eqb_eq in E. subst. exfalso. apply Hx. now left.
  - rewrite IH; [reflexivity|]. intros H. apply Hx. now right.
Qed.

Lemma transform_fault {A : Type} (eqb : A -> A -> bool)
    (le : LabelEncoder) (z : list A) (e : fault) :
  transform eqb le z = Raise e -> e = "ValueError".
Proof.
  unfold transform. induction z as [|x z IH]; [discriminate|].
  cbn [traverse]. destruct (index_of eqb x (classes_ le)); cbn [rbind].
  - destruct (traverse _ z); [discriminate|]. cbn [rbind].
    intros [= <-]. now apply IH.
  - now intros [= <-].
Qed.

Lemma insert_sorted (x : string) (l : list string) :
  Sorted (fun a b => String.leb a b = true) l ->
  Sorted (fun a b => String.leb a b = true) (insert String.leb x l).
Proof.
  induction 1 as [|a l Hl IH Hhd]; cbn [insert].
  - repeat constructor.
  - destruct (String.leb x a) eqn:E.
    + constructor; [now constructor | now constructor].
    + assert (Hax : String.leb a x = true)
        by (destruct (String.leb_total x a); congruence).
      constructor; [exact IH|].
      destruct l as [|b l]; cbn [insert].
      * now constructor.
      * destruct (String.leb x b); constructor; [exact Hax|].
        now inversion Hhd.
Qed.

Lemma sort_sorted (l : list string) :
  Sorted (fun a b => String.leb a b = true) (sort String.leb l).
Proof.
  induction l as [|x l IH]; cbn; [constructor | now apply insert_sorted].
Qed.

End Decoding.

(** A fitted label encoder decodes what it encodes: [classes_] holds each
    distinct string once, in increasing order, the code of an entry is the
    position of its string in [classes_], and a vector with a string that
    was not fitted is refused with a [ValueError]. *)
Theorem label_codes_decode (y : list string) :
  NoDup (classes_ (fit String.eqb String.leb y))
  /\ Sorted (fun a b => String.leb a b = true)
            (classes_ (fit String.eqb String.leb y))
  /\ (exists codes,
        transform String.eqb (fit String.eqb String.leb y) y = Ok codes
        /\ forall i, (i < List.length y)%nat ->
             nth_error (classes_ (fit String.eqb String.leb y))
                       (nth i codes 0%nat)
             = Some (nth i y EmptyString))
  /\ (forall z x,
        In x z -> ~ In x y ->
        transform String.eqb (fit String.eqb String.leb y) z
        = Raise "ValueError").
Proof.
  split; [|split; [|split]].
  - apply NoDup_unique, String.eqb_eq.
  - apply sort_sorted.
  - destruct (transform_fitted String.eqb String.leb String.eqb_eq
                (unique String.eqb String.leb y) y EmptyString)
      as (codes & Hc & _ & Hcodes).
    { intros x Hx. now apply unique_In; [apply String.eqb_eq|]. }
    exists codes. split; [exact Hc|].
    intros i Hi. apply (index_of_nth String.eqb String.eqb_eq).
    now apply Hcodes.
  - intros z x Hz Hy.
    apply In_nth_error in Hz as (i & Hi).
    assert (Hnone : index_of String.eqb x
                      (classes_ (fit String.eqb String.leb y)) = None).
    { apply (index_of_absent String.eqb String.eqb_eq).
      intros Hin. apply Hy.
      apply (unique_In String.eqb String.leb String.eqb_eq). exact Hin. }
    destruct (traverse_raises
                (fun x => match index_of String.eqb x
                                  (classes_ (fit String.eqb String.leb y)) with
                          | Some i => Ok i
                          | None => Raise "ValueError"
                          end) z i x "ValueError" Hi)
      as (e & He); [now rewrite Hnone|].
    unfold transform. rewrite He. f_equal.
    now apply (transform_fault String.eqb
                 (fit String.eqb String.leb y) z).
Qed.

(** *** Imputing a table that misses nothing *)

Section Complete.
Local Open Scope nat_scope.

Lemma filter_all_values (f : value -> bool) (l : list value) :
  (forall x, In x l -> f x = true) -> filter f l = l.
Proof.
  induction l as [|x l IH]; intros H; simpl; [reflexivity|].
  rewrite (H x) by now left. f_equal. apply IH. intros y Hy. apply H.
  now right.
Qed.

Lemma column_numbers (X : ndarray) (j : nat) :
  rectangular X -> j < ncols X ->
  (forall i c x, entry X i c = Some x -> exists q, x = Num q) ->
  forall x, In x (column_at X j) -> exists q, x = Num q.
Proof.
  intros Hrect Hj Hnum x Hx. unfold column_at in Hx.
  apply in_map_iff in Hx as (r & <- & Hr).
  apply In_nth_error in Hr as (i & Hi).
  apply (Hnum i j). unfold entry. rewrite Hi.
  apply nth_error_nth'.
  unfold rectangular in Hrect. rewrite Forall_forall in Hrect.
  rewrite (Hrect r (nth_error_In _ _ Hi)). exact Hj.
Qed.

Lemma present_numbers (col : list value) :
  (forall x, In x col -> exists q, x = Num q) -> present col = col.
Proof.
  intros H. unfold present. apply filter_all_values. intros x Hx.
  destruct (H x Hx) as (q & ->). reflexivity.
Qed.

Lemma complete_statistics (X : ndarray) (stats : list value) (j : nat) :
  rectangular X -> 0 < nrows X ->
  (forall i c x, entry X i c = Some x -> exists q, x = Num q) ->
  statistics_ X = Ok stats -> j < ncols X ->
  exists q, nth j stats NaN = Num q.
Proof.
  intros Hrect Hrows Hnum Hstats Hj. unfold statistics_ in Hstats.
  destruct (traverse_nth _ _ _ _ _ Hstats (nth_error_seq0 _ _ Hj))
    as (m & Hm & Hnth).
  rewrite (nth_error_nth _ _ NaN Hnth).
  rewrite present_numbers in Hm by now apply column_numbers.
  eapply mean_number; [exact Hm | |].
  - unfold column_at, nrows in *. destruct (rows X); [simpl in *; lia|].
    discriminate.
  - intros x Hx. destruct (column_numbers X j Hrect Hj Hnum x Hx) as (q & ->).
    discriminate.
Qed.

Lemma complete_statistics_exist (X : ndarray) :
  rectangular X ->
  (forall i c x, entry X i c = Some x -> exists q, x = Num q) ->
  exists stats, statistics_ X = Ok stats.
Proof.
  intros Hrect Hnum. unfold statistics_. apply traverse_total.
  intros j Hj. apply in_seq in Hj. apply mean_total.
  intros x Hx t. unfold present in Hx. apply filter_In in Hx as (Hx & _).
  destruct (column_numbers X j Hrect (proj2 Hj) Hnum x Hx) as (q & ->).
  discriminate.
Qed.

End Complete.

(** The imputer leaves a table that misses nothing as it is: on a
    rectangular table of numbers with at least one row, every column is
    kept and every entry keeps its value. *)
Theorem imputer_keeps_a_complete_table (X : ndarray) :
  rectangular X ->
  (0 < nrows X)%nat ->
  (forall i j x, entry X i j = Some x -> exists q, x = Num q) ->
  imputer_fit_transform X = Ok X.
Proof.
  intros Hrect Hrows Hnum.
  destruct (complete_statistics_exist X Hrect Hnum) as (stats & Hstats).
  unfold imputer_fit_transform. cbn [bind Monad_result].
  rewrite Hstats. cbn [rbind].
  rewrite filter_all.
  2:{ intros j Hj. apply in_seq in Hj.
      destruct (complete_statistics X stats j Hrect Hrows Hnum Hstats)
        as (q & ->); [lia | reflexivity]. }
  rewrite length_seq. destruct X as [n rs]. cbn [ncols rows] in *.
  f_equal. f_equal. rewrite <- (map_id rs) at 2. apply map_ext_in.
  intros r Hr.
  unfold rectangular in Hrect. cbn [rows ncols] in Hrect.
  rewrite Forall_forall in Hrect. rewrite <- (Hrect r Hr).
  transitivity (map (fun j => nth j r NaN) (seq 0 (List.length r)));
    [|apply map_nth_all].
  apply map_ext_in. intros j Hj. apply in_seq in Hj.
  destruct (In_nth_error _ _ Hr) as (i & Hi).
  destruct (Hnum i j (nth j r NaN)) as (q & Hq).
  { unfold entry. cbn [rows]. rewrite Hi. apply nth_error_nth'. lia. }
  rewrite Hq. reflexivity.
Qed.

Lemma imputer_keeps_a_complete_table_witness :
  imputer_fit_transform complete_table = Ok complete_table.
Proof.
  apply imputer_keeps_a_complete_table.
  - repeat constructor.
  - cbn. lia.
  - intros i j x H. unfold entry, complete_table in H. cbn [rows] in H.
    destruct i as [|[|[|i]]]; cbn [nth_error] in H; try discriminate;
      destruct j as [|[|[|j]]]; cbn [nth_error] in H; try discriminate;
      injection H as <-; eauto.
Defined.

(** *** Encoding a column of strings *)

Section StringEntries.

Lemma distinct_Str (l : list string) :
  distinct py_eqb (map Str l) = map Str (distinct String.eqb l).
Proof.
  induction l as [|x l IH]; [reflexivity|].
  cbn [map distinct]. rewrite IH. f_equal. clear IH.
  generalize (distinct String.eqb l). intros d.
  induction d as [|y d IHd]; [reflexivity|].
  cbn [map filter].
  change (py_eqb (Str x) (Str y)) with (String.eqb x y).
  destruct (String.eqb x y); cbn [negb map]; now rewrite IHd.
Qed.

Lemma insert_Str (x : string) (l : list string) :
  insert value_leb (Str x) (map Str l) = map Str (insert String.leb x l).
Proof.
  induction l as [|y l IH]; [reflexivity|].
  cbn [map insert].
  change (value_leb (Str x) (Str y)) with (String.leb x y).
  destruct (String.leb x y); cbn [map]; [reflexivity | now rewrite IH].
Qed.

Lemma unique_Str (l : list string) :
  unique py_eqb value_leb (map Str l)
  = map Str (unique String.eqb String.leb l).
Proof.
  unfold unique. rewrite distinct_Str. unfold sort.
  generalize (distinct String.eqb l). intros d.
  induction d as [|x d IH]; [reflexivity|].
  cbn [map fold_right]. now rewrite IH, insert_Str.
Qed.

Lemma index_of_Str (x : string) (l : list string) :
  index_of py_eqb (Str x) (map Str l) = index_of String.eqb x l.
Proof.
  induction l as [|y l IH]; [reflexivity|].
  cbn [map index_of].
  change (py_eqb (Str x) (Str y)) with (String.eqb x y). now rewrite IH.
Qed.

Lemma transform_Str (cls z : list string) :
  transform py_eqb (mk_LabelEncoder (map Str cls)) (map Str z)
  = transform String.eqb (mk_LabelEncoder cls) z.
Proof.
  unfold transform. cbn [classes_].
  induction z as [|x z IH]; [reflexivity|].
  cbn [map traverse]. now rewrite index_of_Str, IH.
Qed.

End StringEntries.

(** On a column of strings the encoder of the cells, which compares and
    orders array entries, computes what the encoder of strings computes:
    the same classes, the same codes for any vector of strings; so
    encoding the column it was fitted on cannot fail. *)
Theorem string_columns_encode_as_strings (y : list string) :
  classes_ (fit py_eqb value_leb (map Str y))
  = map Str (classes_ (fit String.eqb String.leb y))
  /\ (forall z,
        transform py_eqb (fit py_eqb value_leb (map Str y)) (map Str z)
        = transform String.eqb (fit String.eqb String.leb y) z)
  /\ exists codes,
       transform py_eqb (fit py_eqb value_leb (map Str y)) (map Str y)
       = Ok codes
       /\ List.length codes = List.length y.
Proof.
  assert (Hfit : fit py_eqb value_leb (map Str y)
                 = mk_LabelEncoder
                     (map Str (unique String.eqb String.leb y)))
    by (unfold fit; now rewrite unique_Str).
  split; [now rewrite Hfit|]. split.
  - intros z. rewrite Hfit. apply transform_Str.
  - rewrite Hfit, transform_Str.
    destruct (transform_fitted String.eqb String.leb String.eqb_eq
                (unique String.eqb String.leb y) y EmptyString)
      as (codes & Hc & Hlen & _).
    { intros x Hx. now apply unique_In; [apply String.eqb_eq|]. }
    exists codes. split; assumption.
Qed.
